(** * terraform-provider-smtp: the provider configuration and the
      [smtp_message] resource

    A shallow embedding of [internal/provider/provider.go] and
    [internal/provider/resource_message.go].  Go strings are [string],
    byte slices are [list byte], Go maps are [gmap]s whose iteration order
    is supplied from outside, and the Go standard library pieces the
    resource is built from ([fmt], [io.MultiWriter], [bufio.Writer],
    [textproto]'s dot writer, [crypto/sha256]) are embedded next to it. *)

From Stdlib Require Import ZArith Lia Bool List Ascii String.
From Stdlib Require Import Strings.Byte DecimalString.
From stdpp Require Import base list strings gmap sets.

Import ListNotations.
Set Warnings "-clear-no-such-hyp".
Local Open Scope string_scope.
Local Open Scope list_scope.

(** ** Go basics: strings, byte slices, errors *)

Module Go.

(** The [error] interface is carried by its [Error()] text; [None] is
    [nil]. *)
Definition error := option string.

(** [[]byte(s)] *)
Definition bytes (s : string) : list byte := list_byte_of_string s.

(** [strings.Join(elems, sep)] *)
Fixpoint Join (elems : list string) (sep : string) : string :=
  match elems with
  | [] => ""
  | [e] => e
  | e :: rest => e ++ sep ++ Join rest sep
  end.

(** [fmt.Sprintln]: operands in their default format, always a space
    between two operands, and a newline at the end. *)
Definition newline : string := String (ascii_of_nat 10) "".

Definition Sprintln (operands : list string) : string :=
  Join operands " " ++ newline.

(** [fmt.Sprint] of one string operand. *)
Definition Sprint (operand : string) : string := operand.

(** [%d] of an integer. *)
Definition decimal (z : Z) : string :=
  DecimalString.NilZero.string_of_int (Z.to_int z).

(** [%x] of a byte slice: two lower-case hexadecimal digits per byte. *)
Definition hexdigit (n : N) : ascii :=
  match n with
  | 0 => "0" | 1 => "1" | 2 => "2" | 3 => "3" | 4 => "4" | 5 => "5"
  | 6 => "6" | 7 => "7" | 8 => "8" | 9 => "9" | 10 => "a" | 11 => "b"
  | 12 => "c" | 13 => "d" | 14 => "e" | _ => "f"
  end%N%char.

Fixpoint hex (b : list byte) : string :=
  match b with
  | [] => ""
  | x :: rest =>
      String (hexdigit (Byte.to_N x / 16))
        (String (hexdigit (Byte.to_N x mod 16)) (hex rest))
  end.

End Go.

(** ** [crypto/sha256]

    The digest of FIPS 180-4 on 32-bit words kept in [Z], every addition
    reduced modulo [2^32]. *)

Module SHA256.
Local Open Scope Z_scope.

Definition wrap (x : Z) : Z := x mod 2 ^ 32.
Definition add32 (x y : Z) : Z := wrap (x + y).
Definition not32 (x : Z) : Z := 2 ^ 32 - 1 - x.
Definition rotr (n x : Z) : Z :=
  Z.lor (Z.shiftr x n) (wrap (Z.shiftl x (32 - n))).

Definition Ch (x y z : Z) : Z := Z.lxor (Z.land x y) (Z.land (not32 x) z).
Definition Maj (x y z : Z) : Z :=
  Z.lxor (Z.lxor (Z.land x y) (Z.land x z)) (Z.land y z).
Definition Sigma0 (x : Z) : Z :=
  Z.lxor (Z.lxor (rotr 2 x) (rotr 13 x)) (rotr 22 x).
Definition Sigma1 (x : Z) : Z :=
  Z.lxor (Z.lxor (rotr 6 x) (rotr 11 x)) (rotr 25 x).
Definition sigma0 (x : Z) : Z :=
  Z.lxor (Z.lxor (rotr 7 x) (rotr 18 x)) (Z.shiftr x 3).
Definition sigma1 (x : Z) : Z :=
  Z.lxor (Z.lxor (rotr 17 x) (rotr 19 x)) (Z.shiftr x 10).

(** The constants of the standard are the first 32 bits of the fractional
    parts of roots of the first primes. *)
Definition is_prime (n : nat) : bool :=
  forallb (fun d => negb (n mod d =? 0)%nat) (seq 2 (n - 2)).

Definition primes (count : nat) : list Z :=
  map Z.of_nat (firstn count (filter is_prime (seq 2 310))).

(** The integer cube root, one bit after the other from bit 40 down. *)
Definition cube_root (n : Z) : Z :=
  fold_left
    (fun r b => let c := r + 2 ^ Z.of_nat b in if c * c * c <=? n then c else r)
    (rev (seq 0 41)) 0.

(** Cube roots of the first 64 primes. *)
Definition K : list Z :=
  map (fun p => wrap (cube_root (p * 2 ^ 96))) (primes 64).

(** The chaining value: eight words. *)
Record digest := Digest {
  h0 : Z; h1 : Z; h2 : Z; h3 : Z; h4 : Z; h5 : Z; h6 : Z; h7 : Z
}.

(** Square roots of the first 8 primes. *)
Definition init : digest :=
  let h (i : nat) := wrap (Z.sqrt (nth i (primes 8) 0 * 2 ^ 64)) in
  Digest (h 0%nat) (h 1%nat) (h 2%nat) (h 3%nat)
         (h 4%nat) (h 5%nat) (h 6%nat) (h 7%nat).

Definition byteZ (b : byte) : Z := Z.of_N (Byte.to_N b).

Definition Zbyte (z : Z) : byte :=
  match Byte.of_N (Z.to_N (z mod 256)) with
  | Some b => b
  | None => x00
  end.

(** Big-endian words. *)
Fixpoint words (n : nat) (block : list byte) : list Z :=
  match n, block with
  | S n', a :: b :: c :: d :: rest =>
      (byteZ a * 2 ^ 24 + byteZ b * 2 ^ 16 + byteZ c * 2 ^ 8 + byteZ d)
        :: words n' rest
  | _, _ => []
  end.

Definition word_bytes (w : Z) : list byte :=
  [ Zbyte (Z.shiftr w 24); Zbyte (Z.shiftr w 16);
    Zbyte (Z.shiftr w 8); Zbyte w ].

(** The message schedule: [extend n w] appends [n] further words to the
    words [w] computed so far. *)
Fixpoint extend (n : nat) (w : list Z) : list Z :=
  match n with
  | O => w
  | S n' =>
      let t := length w in
      let at_ (i : nat) := nth (t - i) w 0 in
      extend n'
        (w ++ [add32 (add32 (sigma1 (at_ 2%nat)) (at_ 7%nat))
                     (add32 (sigma0 (at_ 15%nat)) (at_ 16%nat))])
  end.

Definition round (s : digest) (kw : Z * Z) : digest :=
  let t1 :=
    add32 (add32 (add32 (h7 s) (Sigma1 (h4 s))) (Ch (h4 s) (h5 s) (h6 s)))
          (add32 (fst kw) (snd kw)) in
  let t2 := add32 (Sigma0 (h0 s)) (Maj (h0 s) (h1 s) (h2 s)) in
  Digest (add32 t1 t2) (h0 s) (h1 s) (h2 s)
         (add32 (h3 s) t1) (h4 s) (h5 s) (h6 s).

Definition block (s : digest) (b : list byte) : digest :=
  let w := extend 48 (words 16 b) in
  let r := fold_left round (combine K w) s in
  Digest (add32 (h0 s) (h0 r)) (add32 (h1 s) (h1 r))
         (add32 (h2 s) (h2 r)) (add32 (h3 s) (h3 r))
         (add32 (h4 s) (h4 r)) (add32 (h5 s) (h5 r))
         (add32 (h6 s) (h6 r)) (add32 (h7 s) (h7 r)).

(** Padding: a [0x80] byte, zeros up to 56 modulo 64, and the length in
    bits as a big-endian 64-bit number. *)
Definition pad (msg : list byte) : list byte :=
  let len := Z.of_nat (length msg) in
  let zeros := Z.to_nat ((55 - len) mod 64) in
  let bits := len * 8 in
  msg ++ [x80] ++ repeat x00 zeros
      ++ word_bytes (Z.shiftr bits 32) ++ word_bytes bits.

Fixpoint blocks (n : nat) (s : digest) (m : list byte) : digest :=
  match n with
  | O => s
  | S n' => blocks n' (block s (firstn 64 m)) (skipn 64 m)
  end.

Definition digest_bytes (s : digest) : list byte :=
  word_bytes (h0 s) ++ word_bytes (h1 s) ++ word_bytes (h2 s)
    ++ word_bytes (h3 s) ++ word_bytes (h4 s) ++ word_bytes (h5 s)
    ++ word_bytes (h6 s) ++ word_bytes (h7 s).

(** [sha256.Sum256] *)
Definition Sum256 (msg : list byte) : list byte :=
  let m := pad msg in
  digest_bytes (blocks (length m / 64) init m).

End SHA256.

(** ** [io], [bytes], [hash]: writers *)

Module io.

Definition ErrShortWrite : string := "short write".

(** [io.Writer]: [Write(p)] returns the number of bytes taken and an
    error; the receiver's new state comes first. *)
Class Writer (W : Type) := Write : W -> list byte -> W * nat * Go.error.

(** A [*bytes.Buffer]: [Write] appends and never fails. *)
Record Buffer := NewBuffer { Bytes : list byte }.

#[global] Instance Buffer_Writer : Writer Buffer :=
  fun b p => (NewBuffer (Bytes b ++ p), length p, None).

(** A [hash.Hash] made by [sha256.New()]: [Write] adds to the running
    hash and never fails, [Sum(nil)] is the digest of all that was
    written. *)
Record Hash := NewHash { written : list byte }.

#[global] Instance Hash_Writer : Writer Hash :=
  fun h p => (NewHash (written h ++ p), length p, None).

Definition Sum (h : Hash) : list byte := SHA256.Sum256 (written h).

(** [io.MultiWriter(a, b)]: every [Write] goes to [a], then to [b]; the
    first error, or a short count, stops it. *)
Definition MultiWrite {A B} `{Writer A, Writer B}
    (t : A * B) (p : list byte) : (A * B) * nat * Go.error :=
  let '(a, n, err) := Write (fst t) p in
  match err with
  | Some e => ((a, snd t), n, Some e)
  | None =>
      if negb (n =? length p)%nat
      then ((a, snd t), n, Some ErrShortWrite)
      else
        let '(b, n, err) := Write (snd t) p in
        match err with
        | Some e => ((a, b), n, Some e)
        | None =>
            if negb (n =? length p)%nat
            then ((a, b), n, Some ErrShortWrite)
            else ((a, b), length p, None)
        end
  end.

End io.

(** ** [bufio.Writer] *)

Module bufio.
Import io.

Definition defaultBufSize : nat := 4096.

(** The buffered bytes [buf] (Go's [b.buf[0:b.n]]), the sticky error and
    the underlying writer. *)
Record Writer (U : Type) := mkWriter {
  wr : U;
  buf : list byte;
  err : Go.error
}.
Arguments mkWriter {U}.
Arguments wr {U}.
Arguments buf {U}.
Arguments err {U}.

Definition NewWriter {U} (w : U) : Writer U := mkWriter w [] None.

Section Methods.
Context {U : Type} `{io.Writer U}.

Definition Available (b : Writer U) : nat := defaultBufSize - length (buf b).
Definition Buffered (b : Writer U) : nat := length (buf b).

Definition Flush (b : Writer U) : Writer U * Go.error :=
  match err b with
  | Some e => (b, Some e)
  | None =>
      match buf b with
      | [] => (b, None)
      | _ =>
          let '(u, n, e) := io.Write (wr b) (buf b) in
          let e :=
            match e with
            | None => if (n <? length (buf b))%nat
                      then Some ErrShortWrite else None
            | Some _ => e
            end in
          match e with
          | Some _ => (mkWriter u (skipn n (buf b)) e, e)
          | None => (mkWriter u [] None, None)
          end
      end
  end.

Definition WriteByte (b : Writer U) (c : byte) : Writer U * Go.error :=
  match err b with
  | Some e => (b, Some e)
  | None =>
      let '(b, e) :=
        if (Available b <=? 0)%nat then Flush b else (b, None) in
      match e with
      | Some _ => (b, err b)
      | None => (mkWriter (wr b) (buf b ++ [c]) (err b), None)
      end
  end.

(** The loop of [Write]: while [p] does not fit and no error occurred,
    either hand [p] to the underlying writer (empty buffer) or fill the
    buffer and flush.  [fuel] bounds the number of iterations. *)
Fixpoint Write_loop (fuel : nat) (b : Writer U) (p : list byte)
    : Writer U * list byte :=
  match fuel with
  | O => (b, p)
  | S fuel' =>
      if (Available b <? length p)%nat && negb (bool_decide (is_Some (err b)))
      then
        if (Buffered b =? 0)%nat
        then
          let '(u, n, e) := io.Write (wr b) p in
          Write_loop fuel' (mkWriter u (buf b) e) (skipn n p)
        else
          let n := Available b in
          let '(b', _) := Flush (mkWriter (wr b) (buf b ++ firstn n p) (err b)) in
          Write_loop fuel' b' (skipn n p)
      else (b, p)
  end.

Definition Write (b : Writer U) (p : list byte) : Writer U * Go.error :=
  let '(b, p) := Write_loop (S (S (length p))) b p in
  match err b with
  | Some e => (b, Some e)
  | None => (mkWriter (wr b) (buf b ++ p) None, None)
  end.

End Methods.

End bufio.

(** ** [textproto]'s dot writer *)

Module textproto.

Inductive wstate :=
| wstateBegin      (* initial state *)
| wstateBeginLine  (* beginning of line *)
| wstateCR         (* wrote \r (possibly at end of line) *)
| wstateData.      (* writing data in middle of line *)

Definition dot : byte := "."%byte.
Definition cr : byte := x0d.
Definition lf : byte := x0a.
Definition dotcrnl : list byte := [dot; cr; lf].

(** [textproto.NewWriter(bw).DotWriter()] *)
Record dotWriter (U : Type) := mkDotWriter {
  W : bufio.Writer U;
  state : wstate
}.
Arguments mkDotWriter {U}.
Arguments W {U}.
Arguments state {U}.

Definition DotWriter {U} (bw : bufio.Writer U) : dotWriter U :=
  mkDotWriter bw wstateBegin.

Section Methods.
Context {U : Type} `{io.Writer U}.

(** One turn of the loop of [Write] on the byte [c]: the state after
    the [switch], the writer after the escapes, and the result of the
    final [bw.WriteByte(c)], whose error alone is looked at. *)
Definition step (d : dotWriter U) (c : byte) : dotWriter U * Go.error :=
  let bw := W d in
  let '(bw, st) :=
    match state d with
    | wstateBegin | wstateBeginLine =>
        let bw := if Byte.eqb c dot then fst (bufio.WriteByte bw dot) else bw in
        let st := if Byte.eqb c cr then wstateCR else wstateData in
        if Byte.eqb c lf
        then (fst (bufio.WriteByte bw cr), wstateBeginLine)
        else (bw, st)
    | wstateData =>
        let st := if Byte.eqb c cr then wstateCR else wstateData in
        if Byte.eqb c lf
        then (fst (bufio.WriteByte bw cr), wstateBeginLine)
        else (bw, st)
    | wstateCR =>
        (bw, if Byte.eqb c lf then wstateBeginLine else wstateData)
    end in
  let '(bw, e) := bufio.WriteByte bw c in
  (mkDotWriter bw st, e).

Fixpoint Write_from (n : nat) (d : dotWriter U) (b : list byte)
    : dotWriter U * nat * Go.error :=
  match b with
  | [] => (d, n, None)
  | c :: rest =>
      let '(d, e) := step d c in
      match e with
      | Some _ => (d, n, e)
      | None => Write_from (S n) d rest
      end
  end.

Definition Write (d : dotWriter U) (b : list byte)
    : dotWriter U * nat * Go.error :=
  Write_from 0 d b.

#[global] Instance dotWriter_Writer : io.Writer (dotWriter U) := Write.

(** [Close]: finish the last line, write the [.\r\n] terminator, and
    flush; only the flush's error is returned. *)
Definition Close (d : dotWriter U) : dotWriter U * Go.error :=
  let bw := W d in
  let bw :=
    match state d with
    | wstateBeginLine => bw
    | wstateCR => fst (bufio.WriteByte bw lf)
    | _ => fst (bufio.WriteByte (fst (bufio.WriteByte bw cr)) lf)
    end in
  let bw := fst (bufio.Write bw dotcrnl) in
  let '(bw, e) := bufio.Flush bw in
  (mkDotWriter bw (state d), e).

End Methods.

End textproto.

(** ** [net/smtp], [diag], and what the run time decides *)

Module smtp.

(** [smtp.Auth]: the two mechanisms the provider builds, or [nil]. *)
Inductive Auth :=
| nil_Auth
| CRAMMD5Auth (username secret : string)
| PlainAuth (identity username password host : string).

(** One call [smtp.SendMail(addr, a, from, to, msg)]. *)
Record call := Call {
  addr : string;
  a : Auth;
  from : string;
  to : list string;
  msg : list byte
}.

End smtp.

Module diag.

Inductive Severity := Error | Warning.

Record Diagnostic := mkDiagnostic {
  severity : Severity;
  Summary : string
}.

(** [nil] diagnostics mean success. *)
Definition Diagnostics := list Diagnostic.

(** [diag.Errorf(format, a...)], given the formatted text. *)
Definition Errorf (text : string) : Diagnostics := [mkDiagnostic Error text].


End diag.

(** Iteration over a Go map visits every entry once in an order the
    language leaves open.  [MapRange] is one way of choosing it. *)
Record MapRange := {
  range : forall {V : Type}, gmap string V -> list (string * V);
  range_perm : forall (V : Type) (m : gmap string V), range m ≡ₚ map_to_list m
}.

(** What lies outside the provider: the order in which maps and
    [schema.Set]s are listed, the clock, and the mail server's answer to
    [smtp.SendMail]. *)
Record World := {
  ranging : MapRange;
  List : gset string -> list string;
  List_perm : forall s : gset string, List s ≡ₚ elements s;
  UnixNano : Z;
  SendMail : smtp.call -> Go.error
}.

(** The order stdpp lists maps and sets in. *)
Definition listed : MapRange :=
  {| range := fun V m => map_to_list m;
     range_perm := fun V m => reflexivity (map_to_list m) |}.

(** ** [provider.go] *)

(** [schema.ResourceData] of the provider block. *)
Module ProviderData.
Record cram := { secret : string }.
Record plain := { password : string; identity : string }.
Record t := {
  host : string;
  username : string;
  from : string;
  port : Z;
  cram_md5_auth : list cram;
  plain_auth : list plain
}.
End ProviderData.

(** [GetOk] of a list attribute: the value, and whether it has been set to
    a non-zero value, the zero value of a list being the empty list. *)
Definition GetOk {A} (l : list A) : list A * bool :=
  (l, match l with [] => false | _ :: _ => true end).

(** The [client] struct. *)
Module client.
Record t := {
  auth : smtp.Auth;
  host : string;
  username : string;
  from : string;
  port : Z
}.

(** [client.auth = a] *)
Definition set_auth (c : t) (a : smtp.Auth) : t :=
  {| auth := a; host := host c; username := username c;
     from := from c; port := port c |}.
End client.

Definition configureClient (r : ProviderData.t)
    : option client.t * diag.Diagnostics :=
  let client :=
    {| client.host := ProviderData.host r;
       client.port := ProviderData.port r;
       client.username := ProviderData.username r;
       client.from := ProviderData.from r;
       client.auth := smtp.nil_Auth |} in
  let '(cram, ok) := GetOk (ProviderData.cram_md5_auth r) in
  if ok then
    let client :=
      match cram with
      | cramSettings :: _ =>
          client.set_auth client
            (smtp.CRAMMD5Auth (client.username client)
               (ProviderData.secret cramSettings))
      | [] => client
      end in
    (Some client, [])
  else
    let '(plain, ok) := GetOk (ProviderData.plain_auth r) in
    if ok then
      let client :=
        match plain with
        | plainSettings :: _ =>
            client.set_auth client
              (smtp.PlainAuth (ProviderData.identity plainSettings)
                 (client.username client)
                 (ProviderData.password plainSettings)
                 (client.host client))
        | [] => client
        end in
      (Some client, [])
    else (None, diag.Errorf "no authentication method specified").

(** ** [resource_message.go] *)

(** [schema.ResourceData] of an [smtp_message]: its attributes, and the
    id that [SetId] stores. *)
Module MessageData.
Record t := {
  subject : string;
  body : string;
  from : string;
  to : gset string;
  cc : gset string;
  bcc : gset string;
  headers : gmap string string;
  Id : string
}.

Definition SetId (d : t) (v : string) : t :=
  {| subject := subject d; body := body d; from := from d; to := to d;
     cc := cc d; bcc := bcc d; headers := headers d; Id := v |}.
End MessageData.

(** A step either goes on with a value or returns diagnostics at once. *)
Inductive result (A : Type) :=
| Go_on (a : A)
| Return (ds : diag.Diagnostics).
Arguments Go_on {A}.
Arguments Return {A}.

#[export] Instance result_ret : MRet result := fun A a => Go_on a.
#[export] Instance result_bind : MBind result := fun A B f r =>
  match r with
  | Go_on a => f a
  | Return ds => Return ds
  end.

(** [if _, err := ...; err != nil { return diag.Errorf(format, err) }] *)
Definition or_return {A} (format : string) (r : A * Go.error) : result A :=
  match r with
  | (_, Some err) => Return (diag.Errorf (format ++ err))
  | (a, None) => Go_on a
  end.

Definition asStringList (l : list string) : list string :=
  foldl (fun out v => out ++ [v]) [] l.

Definition uniqueRecipients (R : MapRange) (recipients : list (list string))
    : list string :=
  let recipientSet : gmap string () :=
    foldl (fun set recipient =>
             foldl (fun set r => <[r := tt]> set) set recipient)
          ∅ recipients in
  foldl (fun out r => out ++ [fst r]) [] (range R recipientSet).

(** What [resourceMessageCreate] leaves behind: the diagnostics it returns,
    the resource data, and the calls it made to [smtp.SendMail]. *)
Record outcome := {
  diags : diag.Diagnostics;
  data : MessageData.t;
  calls : list smtp.call
}.

Section Create.
(** The document is collected in [buffer], a [*bytes.Buffer] in the
    provider.  The resource only sees writers, so the buffer is kept
    general here: any [io.Writer] whose content can be read back. *)
Context {U : Type} `{io.Writer U} (Bytes : U -> list byte).

(** [sumWriter] and [msgWriter]; together they are [writer]. *)
Definition writers : Type := io.Hash * textproto.dotWriter U.

Definition Fprintln (writer : writers) (operands : list string)
    : writers * Go.error :=
  let '(writer, _, err) := io.MultiWrite writer (Go.bytes (Go.Sprintln operands)) in
  (writer, err).

Definition Fprint (writer : writers) (operand : string)
    : writers * Go.error :=
  let '(writer, _, err) := io.MultiWrite writer (Go.bytes (Go.Sprint operand)) in
  (writer, err).

(** [for k, v := range d.Get("headers")] over the entries still to come. *)
Fixpoint write_headers (writer : writers) (entries : list (string * string))
    : result writers :=
  match entries with
  | [] => Go_on writer
  | (k, v) :: rest =>
      writer ← or_return ("failed to write the " ++ k ++ " header: ")
                 (Fprintln writer [k; ": "; v]);
      write_headers writer rest
  end.

(** Lines 76 to 128: the writers are set up and the document is written
    and closed.  It hands on the writers and the [to] and [cc] lists. *)
Definition compose (buffer : U) (E : World) (client : client.t)
    (d : MessageData.t) : result (writers * list string * list string) :=
  let sumWriter := io.NewHash [] in
  let msgWriter := textproto.DotWriter (bufio.NewWriter buffer) in
  let writer : writers := (sumWriter, msgWriter) in

  let from := client.username client in
  let from := if bool_decide (client.from client ≠ "")
              then client.from client else from in
  let from := if bool_decide (MessageData.from d ≠ "")
              then MessageData.from d else from in

  writer ← or_return "failed to write the From header: "
             (Fprintln writer ["From: "; from]);
  writer ← or_return "failed to write the Subject header: "
             (Fprintln writer ["Subject: "; MessageData.subject d]);

  let to := asStringList (List E (MessageData.to d)) in
  writer ← (if (0 <? length to)%nat
            then or_return "failed to write the To header: "
                   (Fprintln writer ["To: "; Go.Join to ", "])
            else Go_on writer);

  let cc := asStringList (List E (MessageData.cc d)) in
  writer ← (if (0 <? length cc)%nat
            then or_return "failed to write the Cc header: "
                   (Fprintln writer ["Cc: "; Go.Join cc ", "])
            else Go_on writer);

  writer ← write_headers writer (range (ranging E) (MessageData.headers d));

  writer ← or_return "failed to write the body separator: "
             (Fprintln writer []);
  writer ← or_return "failed to write the body: "
             (Fprint writer (MessageData.body d));

  msgWriter ← or_return "failed to close the message writer: "
                (textproto.Close (snd writer));
  Go_on ((fst writer, msgWriter), to, cc).

Definition resourceMessageCreate_on (buffer : U) (E : World)
    (client : client.t) (d : MessageData.t) : outcome :=
  match compose buffer E client d with
  | Return ds => {| diags := ds; data := d; calls := [] |}
  | Go_on (sumWriter, msgWriter, to, cc) =>
      let host := (client.host client ++ ":" ++ Go.decimal (client.port client))%string in
      let recipients :=
        uniqueRecipients (ranging E)
          [to; cc; asStringList (List E (MessageData.bcc d))] in
      let call :=
        smtp.Call host (client.auth client) (client.username client) recipients
          (Bytes (bufio.wr (textproto.W msgWriter))) in
      match SendMail E call with
      | Some err =>
          {| diags := diag.Errorf ("Error sending message as "
                                     ++ client.username client ++ ": " ++ err);
             data := d; calls := [call] |}
      | None =>
          {| diags := [];
             data := MessageData.SetId d
                       (Go.decimal (UnixNano E) ++ "-" ++ Go.hex (io.Sum sumWriter));
             calls := [call] |}
      end
  end.

End Create.

(** [resourceMessageCreate], with the [bytes.NewBuffer(nil)] of line 76. *)
Definition resourceMessageCreate : World -> client.t -> MessageData.t -> outcome :=
  resourceMessageCreate_on io.Bytes (io.NewBuffer []).

(** ** The dot encoding as a function of the bytes written

    What a dot writer whose underlying writer never fails puts out: [emit]
    for one byte, [run] for a slice, [finish] for [Close]. *)
Module DotEncoding.
Import textproto.

Definition emit (st : wstate) (c : byte) : list byte * wstate :=
  match st with
  | wstateBegin | wstateBeginLine =>
      let escape := if Byte.eqb c dot then [dot] else [] in
      if Byte.eqb c lf then (escape ++ [cr; c], wstateBeginLine)
      else (escape ++ [c], if Byte.eqb c cr then wstateCR else wstateData)
  | wstateData =>
      if Byte.eqb c lf then ([cr; c], wstateBeginLine)
      else ([c], if Byte.eqb c cr then wstateCR else wstateData)
  | wstateCR =>
      ([c], if Byte.eqb c lf then wstateBeginLine else wstateData)
  end.

Fixpoint run (st : wstate) (p : list byte) : list byte * wstate :=
  match p with
  | [] => ([], st)
  | c :: rest =>
      let '(out, st) := emit st c in
      let '(outs, st) := run st rest in
      (out ++ outs, st)
  end.

Definition finish (st : wstate) : list byte :=
  match st with
  | wstateBeginLine => dotcrnl
  | wstateCR => lf :: dotcrnl
  | _ => cr :: lf :: dotcrnl
  end.

(** The framed document for the text [p]. *)
Definition encode (p : list byte) : list byte :=
  let '(out, st) := run wstateBegin p in
  out ++ finish st.

End DotEncoding.

(** Everything a [bufio.Writer] over a buffer has taken: what reached the
    buffer followed by what is still held back. *)
Definition accepted (b : bufio.Writer io.Buffer) : list byte :=
  io.Bytes (bufio.wr b) ++ bufio.buf b.

(** [wrote w p w']: the writers [w'] are the writers [w] after the bytes
    [p] went through them without an error. *)
Definition wrote (w : @writers io.Buffer) (p : list byte) (w' : @writers io.Buffer)
    : Prop :=
  bufio.err (textproto.W (snd w')) = None
  /\ io.written (fst w') = io.written (fst w) ++ p
  /\ textproto.state (snd w')
       = snd (DotEncoding.run (textproto.state (snd w)) p)
  /\ accepted (textproto.W (snd w'))
       = accepted (textproto.W (snd w))
           ++ fst (DotEncoding.run (textproto.state (snd w)) p).

(** ** The message as text *)

(** The sender that goes into the [From] line. *)
Definition sender (client : client.t) (d : MessageData.t) : string :=
  if bool_decide (MessageData.from d ≠ "") then MessageData.from d
  else if bool_decide (client.from client ≠ "") then client.from client
  else client.username client.

(** A line for a list of addresses, none for the empty list. *)
Definition address_line (label : string) (addresses : list string) : string :=
  match addresses with
  | [] => ""
  | _ :: _ => Go.Sprintln [label; Go.Join addresses ", "]
  end.

(** The line of one entry of [headers]. *)
Definition header_line (entry : string * string) : string :=
  Go.Sprintln [fst entry; ": "; snd entry].

Fixpoint header_lines (entries : list (string * string)) : string :=
  match entries with
  | [] => ""
  | entry :: rest => header_line entry ++ header_lines rest
  end.

(** The text that goes through [writer], from the first line to the end of
    the body. *)
Definition document (E : World) (client : client.t) (d : MessageData.t)
    : string :=
  Go.Sprintln ["From: "; sender client d]
  ++ Go.Sprintln ["Subject: "; MessageData.subject d]
  ++ address_line "To: " (List E (MessageData.to d))
  ++ address_line "Cc: " (List E (MessageData.cc d))
  ++ header_lines (range (ranging E) (MessageData.headers d))
  ++ Go.newline
  ++ MessageData.body d.

(** ** The delivery and the identity *)

(** The call to [smtp.SendMail] for a message whose text was composed. *)
Definition delivery (E : World) (client : client.t) (d : MessageData.t)
    : smtp.call :=
  smtp.Call (client.host client ++ ":" ++ Go.decimal (client.port client))
    (client.auth client) (client.username client)
    (uniqueRecipients (ranging E)
       [List E (MessageData.to d); List E (MessageData.cc d);
        List E (MessageData.bcc d)])
    (DotEncoding.encode (Go.bytes (document E client d))).

(** The pattern [^\d+-[0-9a-f]{64}$]. *)
Definition is_digit (a : ascii) : bool :=
  let n := nat_of_ascii a in ((48 <=? n) && (n <=? 57))%nat.

Definition is_lower_hex (a : ascii) : bool :=
  let n := nat_of_ascii a in
  is_digit a || ((97 <=? n) && (n <=? 102))%nat.

Fixpoint all_chars (f : ascii -> bool) (s : string) : bool :=
  match s with
  | EmptyString => true
  | String a rest => f a && all_chars f rest
  end.

Fixpoint id_pattern_from (seen_digit : bool) (s : string) : bool :=
  match s with
  | EmptyString => false
  | String a rest =>
      if is_digit a then id_pattern_from true rest
      else if Ascii.eqb a "-"
           then seen_digit && (String.length rest =? 64)%nat
                && all_chars is_lower_hex rest
           else false
  end.

Definition id_pattern (s : string) : bool := id_pattern_from false s.

(** The lines of a text, which end at the line feeds. *)
Fixpoint lines (s : string) : list string :=
  match s with
  | EmptyString => [""]
  | String a rest =>
      match lines rest with
      | [] => [""]
      | l :: ls =>
          if Ascii.eqb a (ascii_of_nat 10) then "" :: l :: ls
          else String a l :: ls
      end
  end.

(** ** Requests that differ in one field *)

Definition with_bcc (d : MessageData.t) (bcc : gset string) : MessageData.t :=
  {| MessageData.subject := MessageData.subject d;
     MessageData.body := MessageData.body d;
     MessageData.from := MessageData.from d;
     MessageData.to := MessageData.to d;
     MessageData.cc := MessageData.cc d;
     MessageData.bcc := bcc;
     MessageData.headers := MessageData.headers d;
     MessageData.Id := MessageData.Id d |}.

Definition with_plain_auth (r : ProviderData.t) (plain : list ProviderData.plain)
    : ProviderData.t :=
  {| ProviderData.host := ProviderData.host r;
     ProviderData.username := ProviderData.username r;
     ProviderData.from := ProviderData.from r;
     ProviderData.port := ProviderData.port r;
     ProviderData.cram_md5_auth := ProviderData.cram_md5_auth r;
     ProviderData.plain_auth := plain |}.

(** ** The writes of the composition, one after the other *)

(** Every write that [compose] makes through [writer], in order: the
    format of its diagnostic and the text written. *)
Definition writes (E : World) (client : client.t) (d : MessageData.t)
    : list (string * string) :=
  let to := List E (MessageData.to d) in
  let cc := List E (MessageData.cc d) in
  [ ("failed to write the From header: ",
     Go.Sprintln ["From: "; sender client d]);
    ("failed to write the Subject header: ",
     Go.Sprintln ["Subject: "; MessageData.subject d]) ]
  ++ match to with
     | [] => []
     | _ :: _ => [("failed to write the To header: ",
                   Go.Sprintln ["To: "; Go.Join to ", "])]
     end
  ++ match cc with
     | [] => []
     | _ :: _ => [("failed to write the Cc header: ",
                   Go.Sprintln ["Cc: "; Go.Join cc ", "])]
     end
  ++ map (fun entry =>
            (("failed to write the " ++ fst entry ++ " header: ")%string,
             header_line entry))
       (range (ranging E) (MessageData.headers d))
  ++ [ ("failed to write the body separator: ", Go.newline);
       ("failed to write the body: ", MessageData.body d) ].

Section Writes.
Context {U : Type} `{io.Writer U}.

Fixpoint write_all (writer : @writers U) (todo : list (string * string))
    : result (@writers U) :=
  match todo with
  | [] => Go_on writer
  | (format, text) :: rest =>
      match io.MultiWrite writer (Go.bytes text) with
      | (_, _, Some err) => Return (diag.Errorf (format ++ err))
      | (writer, _, None) => write_all writer rest
      end
  end.

(** [write_fails buffer E client d format err]: while the message is
    composed into [buffer], a write (all writes before it having gone
    well) or the closing of the message writer fails with the error
    [err]; [format] is the format of the diagnostic for that step. *)
Inductive write_fails (buffer : U) (E : World) (client : client.t)
    (d : MessageData.t) : string -> string -> Prop :=
| fails_write before format text after writer writer' n err :
    writes E client d = before ++ (format, text) :: after ->
    write_all (io.NewHash [], textproto.DotWriter (bufio.NewWriter buffer))
      before = Go_on writer ->
    io.MultiWrite writer (Go.bytes text) = (writer', n, Some err) ->
    write_fails buffer E client d format err
| fails_close writer msgWriter err :
    write_all (io.NewHash [], textproto.DotWriter (bufio.NewWriter buffer))
      (writes E client d) = Go_on writer ->
    textproto.Close (snd writer) = (msgWriter, Some err) ->
    write_fails buffer E client d "failed to close the message writer: " err.

End Writes.

(** A writer every write to which fails. *)
Module Broken.
Inductive pipe := Pipe.

#[global] Instance pipe_Writer : io.Writer pipe :=
  fun p _ => (p, 0%nat, Some "broken pipe").

Definition Bytes (p : pipe) : list byte := [].
End Broken.

(** ** Sample requests *)

Module Sample.

Definition world : World :=
  {| ranging := listed;
     List := elements;
     List_perm := fun s => reflexivity (elements s);
     UnixNano := 1700000000000000000;
     SendMail := fun _ => None |}.

(** The provider block of the acceptance test. *)
Definition provider : ProviderData.t :=
  {| ProviderData.host := "localhost";
     ProviderData.username := "test";
     ProviderData.from := "";
     ProviderData.port := 587;
     ProviderData.cram_md5_auth := [];
     ProviderData.plain_auth :=
       [ {| ProviderData.password := "test"; ProviderData.identity := "" |} ] |}.

(** A provider block with both schemes. *)
Definition both : ProviderData.t :=
  {| ProviderData.host := "localhost";
     ProviderData.username := "test";
     ProviderData.from := "";
     ProviderData.port := 587;
     ProviderData.cram_md5_auth := [ {| ProviderData.secret := "s3cret" |} ];
     ProviderData.plain_auth :=
       [ {| ProviderData.password := "test"; ProviderData.identity := "" |} ] |}.

Definition account : client.t :=
  {| client.auth := smtp.PlainAuth "" "test" "test" "localhost";
     client.host := "localhost";
     client.username := "test";
     client.from := "";
     client.port := 587 |}.

(** The [smtp_message] of the acceptance test. *)
Definition message : MessageData.t :=
  {| MessageData.subject := "Hello World!";
     MessageData.body := "Boom";
     MessageData.from := "";
     MessageData.to := {[ "devnull@spacelift.io" ]};
     MessageData.cc := ∅;
     MessageData.bcc := ∅;
     MessageData.headers := ∅;
     MessageData.Id := "" |}.

(** One address is listed both in [to] and in [bcc]; one extra header. *)
Definition copied : MessageData.t :=
  {| MessageData.subject := "Hello World!";
     MessageData.body := "Boom";
     MessageData.from := "";
     MessageData.to := {[ "a@x.com" ]};
     MessageData.cc := {[ "b@x.com" ]};
     MessageData.bcc := {[ "a@x.com"; "c@x.com" ]};
     MessageData.headers := {[ "X-Mailer" := "terraform" ]};
     MessageData.Id := "" |}.

Definition quote : string := String (ascii_of_nat 34) "".

(** The message of the acceptance test with a [from] of its own. *)
Definition greeting : MessageData.t :=
  {| MessageData.subject := "Hello World!";
     MessageData.body := "Boom";
     MessageData.from := quote ++ "Hello" ++ quote ++ " <world@example.com>";
     MessageData.to := {[ "devnull@spacelift.io" ]};
     MessageData.cc := ∅;
     MessageData.bcc := ∅;
     MessageData.headers := ∅;
     MessageData.Id := "" |}.

(** An account with a default sender, and requests with and without a
    sender of their own. *)
Definition account_B : client.t :=
  {| client.auth := smtp.nil_Auth;
     client.host := "localhost";
     client.username := "C";
     client.from := "B";
     client.port := 587 |}.

Definition account_C : client.t :=
  {| client.auth := smtp.nil_Auth;
     client.host := "localhost";
     client.username := "C";
     client.from := "";
     client.port := 587 |}.

Definition message_A : MessageData.t :=
  {| MessageData.subject := "s";
     MessageData.body := "b";
     MessageData.from := "A";
     MessageData.to := {[ "devnull@spacelift.io" ]};
     MessageData.cc := ∅;
     MessageData.bcc := ∅;
     MessageData.headers := ∅;
     MessageData.Id := "" |}.

Definition message_no_from : MessageData.t :=
  {| MessageData.subject := "s";
     MessageData.body := "b";
     MessageData.from := "";
     MessageData.to := {[ "devnull@spacelift.io" ]};
     MessageData.cc := ∅;
     MessageData.bcc := ∅;
     MessageData.headers := ∅;
     MessageData.Id := "" |}.

(** A subject longer than the buffer of a [bufio.Writer]. *)
Definition lengthy : MessageData.t :=
  {| MessageData.subject := string_of_list_ascii (repeat "a"%char 5000);
     MessageData.body := "Boom";
     MessageData.from := "";
     MessageData.to := {[ "devnull@spacelift.io" ]};
     MessageData.cc := ∅;
     MessageData.bcc := ∅;
     MessageData.headers := ∅;
     MessageData.Id := "" |}.

(** A mail server that turns every message down. *)
Definition refusing : World :=
  {| ranging := listed;
     List := elements;
     List_perm := fun s => reflexivity (elements s);
     UnixNano := 1700000000000000000;
     SendMail := fun _ => Some "554 rejected" |}.

(** The text that went through the hash, line by line. *)
Definition hashed_lines (E : World) (c : client.t) (d : MessageData.t)
    : list string :=
  match compose (io.NewBuffer []) E c d with
  | Go_on (sumWriter, _, _, _) =>
      lines (string_of_list_byte (io.written sumWriter))
  | Return _ => []
  end.

End Sample.

(** * The rest of the provider

    What follows embeds the code around [configureClient] and
    [resourceMessageCreate]: the schemas of [New] and [resourceMessage],
    [recipientList], and the read and delete operations of the resource. *)

From Stdlib Require DecimalZ DecimalPos.

(** ** [*schema.Schema] and [*schema.Resource] literals *)

Module schema.

Set Warnings "-register-all".

Inductive ValueType := TypeString | TypeInt | TypeList | TypeSet | TypeMap.

(** A default value: [nil], a string or an integer. *)
Inductive value := Nil | Str (s : string) | Int (z : Z).

(** A struct literal is the list of the fields it sets; a field that is
    not set has its zero value. *)
Inductive field :=
| Type_ (t : ValueType)
| Description (text : string)
| EnvDefaultFunc (k : string) (dv : value)
| Required (b : bool)
| Optional (b : bool)
| ForceNew (b : bool)
| Sensitive (b : bool)
| MaxItems (n : nat)
| MinItems (n : nat)
| ExactlyOneOf (keys : list string)
| AtLeastOneOf (keys : list string)
| ElemSchema (s : list field)
| ElemResource (r : list (string * list field)).

Definition t : Type := list field.

Definition is_Sensitive (s : t) : bool :=
  existsb (fun f => match f with Sensitive b => b | _ => false end) s.
Definition get_MaxItems (s : t) : nat :=
  list_sum (map (fun f => match f with MaxItems n => n | _ => 0%nat end) s).
Definition get_MinItems (s : t) : nat :=
  list_sum (map (fun f => match f with MinItems n => n | _ => 0%nat end) s).
Definition get_ExactlyOneOf (s : t) : list string :=
  concat (map (fun f => match f with ExactlyOneOf keys => keys | _ => [] end) s).
Definition get_AtLeastOneOf (s : t) : list string :=
  concat (map (fun f => match f with AtLeastOneOf keys => keys | _ => [] end) s).

End schema.

(** ** [resourceMessage] and [recipientList] *)

Definition recipientList (description : string) : schema.t :=
  [ schema.Type_ schema.TypeSet;
    schema.ElemSchema [schema.Type_ schema.TypeString];
    schema.Description description;
    schema.Optional true;
    schema.MinItems 1;
    schema.AtLeastOneOf ["to"; "cc"; "bcc"];
    schema.ForceNew true ].

(** [schema.RemoveFromState]: the id is cleared, and there is no error. *)
Definition RemoveFromState (d : MessageData.t) : MessageData.t * Go.error :=
  (MessageData.SetId d "", None).

(** [diag.FromErr] *)
Definition FromErr (err : Go.error) : diag.Diagnostics :=
  match err with
  | None => []
  | Some e => diag.Errorf e
  end.

(** The [DeleteContext] of the resource. *)
Definition resourceMessageDelete (d : MessageData.t)
    : MessageData.t * diag.Diagnostics :=
  let '(d, err) := RemoveFromState d in
  (d, FromErr err).

(** [schema.NoopContext], the [ReadContext] of the resource. *)
Definition NoopContext (d : MessageData.t) : MessageData.t * diag.Diagnostics :=
  (d, []).

(** A [*schema.Resource] with the operations the provider gives it; there
    is no [UpdateContext]. *)
Record Resource := {
  Resource_Description : string;
  CreateContext : World -> client.t -> MessageData.t -> outcome;
  ReadContext : MessageData.t -> MessageData.t * diag.Diagnostics;
  DeleteContext : MessageData.t -> MessageData.t * diag.Diagnostics;
  UpdateContext : option (World -> client.t -> MessageData.t -> outcome);
  Resource_Schema : list (string * schema.t)
}.

Definition resourceMessage : Resource :=
  {| Resource_Description := "Single SMTP message";
     CreateContext := resourceMessageCreate;
     ReadContext := NoopContext;
     DeleteContext := resourceMessageDelete;
     UpdateContext := None;
     Resource_Schema :=
       [ ("subject",
          [ schema.Type_ schema.TypeString;
            schema.Description "Subject of the message";
            schema.Required true;
            schema.ForceNew true ]);
         ("body",
          [ schema.Type_ schema.TypeString;
            schema.Description "Body of the message";
            schema.Required true;
            schema.ForceNew true ]);
         ("from",
          [ schema.Type_ schema.TypeString;
            schema.Description "From field";
            schema.Optional true;
            schema.ForceNew true ]);
         ("to", recipientList "Direct recipients of the message");
         ("cc", recipientList "CC recipients of the message");
         ("bcc", recipientList "BCC recipients of the message");
         ("headers",
          [ schema.Type_ schema.TypeMap;
            schema.ElemSchema [schema.Type_ schema.TypeString];
            schema.Description "Extra headers of the message";
            schema.Optional true;
            schema.ForceNew true ]) ] |}.

(** ** [New] *)

Record Provider := {
  Provider_Schema : list (string * schema.t);
  ResourcesMap : list (string * Resource);
  ConfigureContextFunc : ProviderData.t -> option client.t * diag.Diagnostics
}.

(** The raw strings of the descriptions begin with a line feed and end
    with the tabs before the closing back quote. *)
Definition tabs (n : nat) : string :=
  string_of_list_ascii (repeat (ascii_of_nat 9) n).

Definition New (version : string) : Provider :=
  {| Provider_Schema :=
       [ ("host",
          [ schema.Type_ schema.TypeString;
            schema.Description
              (Go.newline ++ "The hostname (without port) of the SMTP server."
               ++ Go.newline
               ++ "Can be passed using the SMTP_HOST environment variable."
               ++ String (ascii_of_nat 34) "," ++ Go.newline ++ tabs 5);
            schema.EnvDefaultFunc "SMTP_HOST" schema.Nil;
            schema.Required true ]);
         ("username",
          [ schema.Type_ schema.TypeString;
            schema.Description
              (Go.newline ++ "The username to use for authentication."
               ++ Go.newline
               ++ "Can be passed using the SMTP_USERNAME environment variable."
               ++ Go.newline ++ tabs 5);
            schema.EnvDefaultFunc "SMTP_USERNAME" schema.Nil;
            schema.Required true ]);
         ("from",
          [ schema.Type_ schema.TypeString;
            schema.Description
              (Go.newline ++ "The FROM value." ++ Go.newline
               ++ "Can be passed using the SMTP_FROM environment variable."
               ++ Go.newline ++ tabs 5);
            schema.EnvDefaultFunc "SMTP_FROM" (schema.Str "");
            schema.Optional true ]);
         ("port",
          [ schema.Type_ schema.TypeInt;
            schema.Description
              (Go.newline ++ "The port of the SMTP server." ++ Go.newline
               ++ "Can be passed using the SMTP_PORT environment variable."
               ++ Go.newline
               ++ "If not set explicitly, it will default to 587."
               ++ Go.newline ++ tabs 5);
            schema.EnvDefaultFunc "SMTP_PORT" (schema.Int 587);
            schema.Optional true ]);
         ("cram_md5_auth",
          [ schema.Type_ schema.TypeList;
            schema.Description
              "CRAM-MD5 authentication settings as defined in RFC 2195";
            schema.Optional true;
            schema.MaxItems 1;
            schema.ExactlyOneOf ["cram_md5_auth"; "plain_auth"];
            schema.ElemResource
              [ ("secret",
                 [ schema.Type_ schema.TypeString;
                   schema.Description
                     (Go.newline ++ "The secret to use for authentication."
                      ++ Go.newline
                      ++ "Can be passed using the SMTP_CRAM_MD5_SECRET environment variable."
                      ++ Go.newline ++ tabs 8);
                   schema.EnvDefaultFunc "SMTP_CRAM_MD5_SECRET" schema.Nil;
                   schema.Required true;
                   schema.Sensitive true ]) ] ]);
         ("plain_auth",
          [ schema.Type_ schema.TypeList;
            schema.Description
              "PLAIN authentication settings as defined in RFC 4616";
            schema.Optional true;
            schema.MaxItems 1;
            schema.ExactlyOneOf ["cram_md5_auth"; "plain_auth"];
            schema.ElemResource
              [ ("password",
                 [ schema.Type_ schema.TypeString;
                   schema.Description
                     (Go.newline ++ "The password to use for authentication."
                      ++ Go.newline
                      ++ "Can be passed using the SMTP_PLAIN_PASSWORD environment variable"
                      ++ Go.newline ++ tabs 8);
                   schema.EnvDefaultFunc "SMTP_PLAIN_PASSWORD" schema.Nil;
                   schema.Required true;
                   schema.Sensitive true ]);
                ("identity",
                 [ schema.Type_ schema.TypeString;
                   schema.Description
                     (Go.newline ++ "The identity to use for authentication."
                      ++ Go.newline
                      ++ "Usually the identity should be the empty string, to act as username,"
                      ++ Go.newline ++ "and this is the default." ++ Go.newline
                      ++ "Can be passed using the SMTP_PLAIN_IDENTITY environment variable."
                      ++ Go.newline ++ tabs 8);
                   schema.EnvDefaultFunc "SMTP_PLAIN_IDENTITY" (schema.Str "");
                   schema.Optional true ]) ] ]) ];
     ResourcesMap := [ ("smtp_message", resourceMessage) ];
     ConfigureContextFunc := configureClient |}.

(** ** The checks the schema asks for

    Before [configureClient] or [resourceMessageCreate] is called, the
    plugin SDK checks the configuration against the schema.  Of these
    checks, the ones on groups of attributes and on the number of items are
    embedded: for an attribute with [ExactlyOneOf], exactly one attribute of
    the group (the attribute itself included) is specified; with
    [AtLeastOneOf], at least one is; a specified attribute has at least
    [MinItems] items, and at most [MaxItems] when that is not zero. *)
Section Checks.
Variable specified : string -> bool.
Variable items : string -> nat.

Definition group (keys : list string) (k : string) : list string :=
  remove_dups (keys ++ [k]).

Definition check_ExactlyOneOf (k : string) (s : schema.t) : bool :=
  match schema.get_ExactlyOneOf s with
  | [] => true
  | keys => (length (filter (fun k => specified k = true) (group keys k)) =? 1)%nat
  end.

Definition check_AtLeastOneOf (k : string) (s : schema.t) : bool :=
  match schema.get_AtLeastOneOf s with
  | [] => true
  | keys => (0 <? length (filter (fun k => specified k = true) (group keys k)))%nat
  end.

Definition check_items (k : string) (s : schema.t) : bool :=
  ((schema.get_MinItems s <=? items k)%nat
   && ((schema.get_MaxItems s =? 0)%nat
       || (items k <=? schema.get_MaxItems s)%nat))
  || negb (specified k).

Definition checks (attributes : list (string * schema.t)) : bool :=
  forallb (fun a => check_ExactlyOneOf (fst a) (snd a)
                    && check_AtLeastOneOf (fst a) (snd a)
                    && check_items (fst a) (snd a))
          attributes.

End Checks.

(** An attribute of the provider block counts as specified when its value
    is not the zero value of its type. *)
Definition provider_specified (r : ProviderData.t) (k : string) : bool :=
  if String.eqb k "host" then negb (String.eqb (ProviderData.host r) "")
  else if String.eqb k "username" then negb (String.eqb (ProviderData.username r) "")
  else if String.eqb k "from" then negb (String.eqb (ProviderData.from r) "")
  else if String.eqb k "port" then negb (ProviderData.port r =? 0)%Z
  else if String.eqb k "cram_md5_auth"
       then (0 <? length (ProviderData.cram_md5_auth r))%nat
  else if String.eqb k "plain_auth"
       then (0 <? length (ProviderData.plain_auth r))%nat
  else false.

Definition provider_items (r : ProviderData.t) (k : string) : nat :=
  if String.eqb k "cram_md5_auth" then length (ProviderData.cram_md5_auth r)
  else if String.eqb k "plain_auth" then length (ProviderData.plain_auth r)
  else 0.

Definition message_specified (d : MessageData.t) (k : string) : bool :=
  if String.eqb k "subject" then negb (String.eqb (MessageData.subject d) "")
  else if String.eqb k "body" then negb (String.eqb (MessageData.body d) "")
  else if String.eqb k "from" then negb (String.eqb (MessageData.from d) "")
  else if String.eqb k "to" then (0 <? size (MessageData.to d))%nat
  else if String.eqb k "cc" then (0 <? size (MessageData.cc d))%nat
  else if String.eqb k "bcc" then (0 <? size (MessageData.bcc d))%nat
  else if String.eqb k "headers" then (0 <? size (MessageData.headers d))%nat
  else false.

Definition message_items (d : MessageData.t) (k : string) : nat :=
  if String.eqb k "to" then size (MessageData.to d)
  else if String.eqb k "cc" then size (MessageData.cc d)
  else if String.eqb k "bcc" then size (MessageData.bcc d)
  else if String.eqb k "headers" then size (MessageData.headers d)
  else 0.

(** ** Line ends of a framed message *)

(** [crlf_only after_cr msg]: every line feed of [msg] comes right after a
    carriage return; [after_cr] tells whether the byte before [msg] was
    one. *)
Fixpoint crlf_only (after_cr : bool) (msg : list byte) : bool :=
  match msg with
  | [] => true
  | c :: rest =>
      (if Byte.eqb c textproto.lf then after_cr else true)
      && crlf_only (Byte.eqb c textproto.cr) rest
  end.

(** Whether the last byte is a carriage return. *)
Definition ends_cr (after_cr : bool) (msg : list byte) : bool :=
  match last msg with
  | None => after_cr
  | Some c => Byte.eqb c textproto.cr
  end.

(** ** More sample requests *)

Module Sample2.

(** A request without any recipient. *)
Definition nobody : MessageData.t :=
  {| MessageData.subject := "Hello World!";
     MessageData.body := "Boom";
     MessageData.from := "";
     MessageData.to := ∅;
     MessageData.cc := ∅;
     MessageData.bcc := ∅;
     MessageData.headers := ∅;
     MessageData.Id := "" |}.

End Sample2.

(** ** Reading an id back *)

(** The value of a hexadecimal digit, and the bytes of a hexadecimal
    text. *)
Definition unhexdigit (a : ascii) : N :=
  let n := N_of_ascii a in
  (if n <? 58 then n - 48 else n - 87)%N.

Fixpoint unhex (s : string) : list byte :=
  match s with
  | String hi (String lo rest) =>
      SHA256.Zbyte (Z.of_N (unhexdigit hi * 16 + unhexdigit lo)) :: unhex rest
  | _ => []
  end.

(** What holds of the output [acc] of a dot writer in the state [st]:
    no line feed without its carriage return, a carriage return at the end
    in the state [wstateCR], and a full line end in [wstateBeginLine]. *)
Definition kept (st : textproto.wstate) (acc : list byte) : Prop :=
  crlf_only false acc = true
  /\ (st = textproto.wstateCR -> ends_cr false acc = true)
  /\ (st = textproto.wstateBeginLine ->
      exists o, acc = o ++ [textproto.cr; textproto.lf]).

(** ** The text of a list of writes *)

Fixpoint texts (todo : list (string * string)) : string :=
  match todo with
  | [] => ""
  | (_, text) :: rest => text ++ texts rest
  end.

(** * The writers over a [bytes.Buffer] never fail *)

Section BytesLemmas.

Lemma list_ascii_app (s t : string) :
  list_ascii_of_string (s ++ t) = list_ascii_of_string s ++ list_ascii_of_string t.
Proof. induction s as [|a s IH]; simpl; [reflexivity | now rewrite IH]. Qed.

Lemma string_app_assoc (s t u : string) : (s +:+ t) +:+ u = s +:+ t +:+ u.
Proof.
  induction s as [|a s IH]; [reflexivity|].
  change ((String a s +:+ t) +:+ u) with (String a ((s +:+ t) +:+ u)).
  change (String a s +:+ t +:+ u) with (String a (s +:+ t +:+ u)).
  now rewrite IH.
Qed.

Lemma bytes_app (s t : string) : Go.bytes (s ++ t) = Go.bytes s ++ Go.bytes t.
Proof.
  unfold Go.bytes, list_byte_of_string.
  now rewrite list_ascii_app, map_app.
Qed.

Lemma bytes_length (s : string) : length (Go.bytes s) = String.length s.
Proof.
  unfold Go.bytes, list_byte_of_string. rewrite length_map.
  induction s as [|a s IH]; simpl; [reflexivity | now rewrite IH].
Qed.

Lemma bytes_inj (s t : string) : Go.bytes s = Go.bytes t -> s = t.
Proof.
  intros E. rewrite <- (string_of_list_byte_of_string s),
    <- (string_of_list_byte_of_string t).
  unfold Go.bytes in E. now rewrite E.
Qed.

End BytesLemmas.

Section BufioOverBuffer.
Implicit Types b : bufio.Writer io.Buffer.

Lemma Flush_Buffer b :
  bufio.err b = None ->
  exists b', bufio.Flush b = (b', None)
    /\ bufio.err b' = None /\ bufio.buf b' = []
    /\ io.Bytes (bufio.wr b') = accepted b.
Proof.
  intros He. unfold bufio.Flush, accepted. rewrite He.
  destruct (bufio.buf b) as [|c l] eqn:Hb.
  - exists b. rewrite Hb, app_nil_r. auto.
  - set (q := c :: l).
    change (io.Write (bufio.wr b) q)
      with (io.NewBuffer (io.Bytes (bufio.wr b) ++ q), length q, @None string).
    cbv beta iota zeta. rewrite Nat.ltb_irrefl.
    eexists. repeat split; reflexivity.
Qed.

Lemma WriteByte_Buffer b c :
  bufio.err b = None ->
  exists b', bufio.WriteByte b c = (b', None)
    /\ bufio.err b' = None /\ accepted b' = accepted b ++ [c].
Proof.
  intros He. unfold bufio.WriteByte. rewrite He.
  destruct (bufio.Available b <=? 0)%nat.
  - destruct (Flush_Buffer b He) as (b' & -> & He' & Hb' & Hw').
    rewrite He'. eexists. split; [reflexivity|]. split; [reflexivity|].
    unfold accepted at 1. cbn. now rewrite Hb', Hw'.
  - rewrite He. eexists. split; [reflexivity|]. split; [reflexivity|].
    unfold accepted. cbn. now rewrite app_assoc.
Qed.

Lemma Write_loop_Buffer fuel : forall b p,
  bufio.err b = None ->
  exists b' p', bufio.Write_loop fuel b p = (b', p')
    /\ bufio.err b' = None /\ accepted b' ++ p' = accepted b ++ p.
Proof.
  induction fuel as [|fuel IH]; intros b p He; cbn [bufio.Write_loop].
  - eauto.
  - destruct ((bufio.Available b <? length p)%nat
              && negb (bool_decide (is_Some (bufio.err b)))); [|eauto].
    destruct (bufio.Buffered b =? 0)%nat eqn:Hz.
    + change (io.Write (bufio.wr b) p)
        with (io.NewBuffer (io.Bytes (bufio.wr b) ++ p), length p, @None string).
      cbv beta iota zeta.
      apply Nat.eqb_eq in Hz. unfold bufio.Buffered in Hz.
      apply nil_length_inv in Hz.
      destruct (IH (bufio.mkWriter (io.NewBuffer (io.Bytes (bufio.wr b) ++ p))
                      (bufio.buf b) None) (skipn (length p) p))
        as (b' & p' & -> & He' & Ha); [reflexivity|].
      exists b', p'. split; [reflexivity|]. split; [exact He'|].
      rewrite Ha. unfold accepted. cbn. rewrite Hz, skipn_all, !app_nil_r.
      reflexivity.
    + set (n := bufio.Available b).
      destruct (Flush_Buffer
                  (bufio.mkWriter (bufio.wr b) (bufio.buf b ++ firstn n p)
                     (bufio.err b)) He)
        as (b1 & -> & He1 & Hb1 & Hw1).
      destruct (IH b1 (skipn n p) He1) as (b' & p' & -> & He' & Ha).
      exists b', p'. split; [reflexivity|]. split; [exact He'|].
      rewrite Ha. unfold accepted at 1. rewrite Hb1, Hw1, app_nil_r.
      unfold accepted. cbn. rewrite <- !app_assoc.
      now rewrite firstn_skipn.
Qed.

Lemma Write_Buffer b p :
  bufio.err b = None ->
  exists b', bufio.Write b p = (b', None)
    /\ bufio.err b' = None /\ accepted b' = accepted b ++ p.
Proof.
  intros He. unfold bufio.Write.
  destruct (Write_loop_Buffer (S (S (length p))) b p He)
    as (b' & p' & -> & He' & Ha).
  rewrite He'. eexists. split; [reflexivity|]. split; [reflexivity|].
  rewrite <- Ha. unfold accepted. cbn. now rewrite app_assoc.
Qed.

End BufioOverBuffer.

Section DotWriterOverBuffer.
Import textproto.
Implicit Types d : dotWriter io.Buffer.

Ltac write_byte :=
  match goal with
  | |- context [bufio.WriteByte ?b ?c] =>
      let b' := fresh "b" in
      let He := fresh "He" in
      let Ha := fresh "Ha" in
      destruct (WriteByte_Buffer b c) as (b' & -> & He & Ha);
      [assumption|]; cbn [fst]
  end.

Lemma step_Buffer d c :
  bufio.err (W d) = None ->
  exists d', step d c = (d', None)
    /\ bufio.err (W d') = None
    /\ state d' = snd (DotEncoding.emit (state d) c)
    /\ accepted (W d') = accepted (W d) ++ fst (DotEncoding.emit (state d) c).
Proof.
  intros He. unfold step, DotEncoding.emit.
  destruct (state d), (Byte.eqb c dot), (Byte.eqb c lf), (Byte.eqb c cr);
    repeat write_byte;
    (eexists; split; [reflexivity|]; split; [assumption|];
     split; [reflexivity|]);
    cbn [W fst snd app];
    repeat match goal with H : accepted _ = _ |- _ => rewrite H; clear H end;
    rewrite <- ?app_assoc; reflexivity.
Qed.

Lemma Write_from_Buffer p : forall n d,
  bufio.err (W d) = None ->
  exists d', Write_from n d p = (d', (n + length p)%nat, None)
    /\ bufio.err (W d') = None
    /\ state d' = snd (DotEncoding.run (state d) p)
    /\ accepted (W d') = accepted (W d) ++ fst (DotEncoding.run (state d) p).
Proof.
  induction p as [|c p IH]; intros n d He; cbn [Write_from DotEncoding.run].
  - exists d. rewrite Nat.add_0_r, app_nil_r. auto.
  - destruct (step_Buffer d c He) as (d1 & -> & He1 & Hs1 & Ha1).
    destruct (IH (S n) d1 He1) as (d' & -> & He' & Hs' & Ha').
    exists d'. rewrite Hs1 in Hs', Ha'.
    destruct (DotEncoding.emit (state d) c) as [o st].
    cbn [fst snd] in *.
    destruct (DotEncoding.run st p) as [os st'].
    cbn [fst snd length] in *.
    split; [f_equal; f_equal; lia|]. split; [assumption|].
    split; [assumption|]. now rewrite Ha', Ha1, app_assoc.
Qed.

Lemma Close_Buffer d :
  bufio.err (W d) = None ->
  exists d', Close d = (d', None)
    /\ io.Bytes (bufio.wr (W d'))
        = accepted (W d) ++ DotEncoding.finish (state d).
Proof.
  intros He. unfold Close, DotEncoding.finish.
  destruct (state d); repeat write_byte;
    match goal with
    | |- context [bufio.Write ?b ?p] =>
        destruct (Write_Buffer b p) as (bw & -> & Hew & Haw);
        [assumption|]; cbn [fst]
    end;
    destruct (Flush_Buffer bw Hew) as (bf & -> & Hef & Hbf & Hwf);
    (eexists; split; [reflexivity|]); cbn [W];
    rewrite Hwf, Haw;
    repeat match goal with H : accepted _ = _ |- _ => rewrite H; clear H end;
    rewrite <- ?app_assoc; reflexivity.
Qed.

End DotWriterOverBuffer.

Section WritersOverBuffer.
Implicit Types w : @writers io.Buffer.

Lemma run_app p q : forall st,
  DotEncoding.run st (p ++ q)
  = (fst (DotEncoding.run st p)
       ++ fst (DotEncoding.run (snd (DotEncoding.run st p)) q),
     snd (DotEncoding.run (snd (DotEncoding.run st p)) q)).
Proof.
  induction p as [|c p IH]; intros st; cbn [app DotEncoding.run].
  - cbn. now destruct (DotEncoding.run st q).
  - destruct (DotEncoding.emit st c) as [o st1]. rewrite IH.
    destruct (DotEncoding.run st1 p) as [os st2]. cbn [fst snd].
    destruct (DotEncoding.run st2 q) as [oq st3]. cbn [fst snd].
    now rewrite app_assoc.
Qed.

Lemma wrote_nil w : bufio.err (textproto.W (snd w)) = None -> wrote w [] w.
Proof.
  intros He. unfold wrote. cbn. now rewrite !app_nil_r.
Qed.

Lemma wrote_app w0 p w1 q w2 :
  wrote w0 p w1 -> wrote w1 q w2 -> wrote w0 (p ++ q) w2.
Proof.
  intros (_ & Hh1 & Hs1 & Ha1) (He2 & Hh2 & Hs2 & Ha2).
  unfold wrote. rewrite run_app. cbn [fst snd].
  rewrite Hh2, Hh1, Hs2, Hs1, Ha2, Ha1, Hs1, <- !app_assoc. auto.
Qed.

Lemma MultiWrite_Buffer w p :
  bufio.err (textproto.W (snd w)) = None ->
  exists w', io.MultiWrite w p = (w', length p, None) /\ wrote w p w'.
Proof.
  intros He. unfold io.MultiWrite.
  change (io.Write (fst w) p)
    with (io.NewHash (io.written (fst w) ++ p), length p, @None string).
  cbv beta iota zeta. rewrite Nat.eqb_refl. cbn [negb].
  change (io.Write (snd w) p) with (textproto.Write_from 0 (snd w) p).
  destruct (Write_from_Buffer p 0 (snd w) He) as (d' & -> & He' & Hs' & Ha').
  cbn [Nat.add]. rewrite Nat.eqb_refl. cbn [negb].
  eexists. split; [reflexivity|]. repeat split; assumption.
Qed.

Lemma Fprintln_Buffer format w0 acc w operands :
  wrote w0 acc w ->
  exists w', or_return format (Fprintln w operands) = Go_on w'
    /\ wrote w0 (acc ++ Go.bytes (Go.Sprintln operands)) w'.
Proof.
  intros Hw. unfold Fprintln.
  destruct (MultiWrite_Buffer w (Go.bytes (Go.Sprintln operands)))
    as (w' & -> & Hw'); [apply Hw|].
  exists w'. split; [reflexivity|]. eapply wrote_app; eassumption.
Qed.

Lemma Fprint_Buffer format w0 acc w operand :
  wrote w0 acc w ->
  exists w', or_return format (Fprint w operand) = Go_on w'
    /\ wrote w0 (acc ++ Go.bytes operand) w'.
Proof.
  intros Hw. unfold Fprint, Go.Sprint.
  destruct (MultiWrite_Buffer w (Go.bytes operand))
    as (w' & -> & Hw'); [apply Hw|].
  exists w'. split; [reflexivity|]. eapply wrote_app; eassumption.
Qed.

Lemma write_headers_Buffer entries : forall w0 acc w,
  wrote w0 acc w ->
  exists w', write_headers w entries = Go_on w'
    /\ wrote w0 (acc ++ Go.bytes (header_lines entries)) w'.
Proof.
  induction entries as [|[k v] rest IH]; intros w0 acc w Hw;
    cbn [write_headers header_lines].
  - exists w. rewrite app_nil_r. auto.
  - destruct (Fprintln_Buffer ("failed to write the " ++ k ++ " header: ")
                w0 acc w [k; ": "; v] Hw) as (w1 & -> & H1).
    destruct (IH _ _ _ H1) as (w' & Hrun & H').
    exists w'. split; [exact Hrun|].
    rewrite bytes_app, app_assoc. exact H'.
Qed.

Lemma append_loop {A} (l : list A) : forall out,
  foldl (fun out v => out ++ [v]) out l = out ++ l.
Proof.
  induction l as [|v l IH]; intros out; cbn [foldl].
  - now rewrite app_nil_r.
  - rewrite IH, <- app_assoc. reflexivity.
Qed.

Lemma asStringList_id (l : list string) : asStringList l = l.
Proof. unfold asStringList. now rewrite append_loop. Qed.

Lemma address_line_Buffer format label w0 acc w (l : list string) :
  wrote w0 acc w ->
  exists w',
    (if (0 <? length l)%nat
     then or_return format (Fprintln w [label; Go.Join l ", "])
     else Go_on w) = Go_on w'
    /\ wrote w0 (acc ++ Go.bytes (address_line label l)) w'.
Proof.
  intros Hw. destruct l as [|a l].
  - exists w. cbn. rewrite app_nil_r. auto.
  - apply Fprintln_Buffer. exact Hw.
Qed.

(** Over a [bytes.Buffer] the composition always comes to its end: the
    hash has taken the text of the message, and the buffer holds its dot
    encoding. *)
Lemma compose_Buffer E c d :
  exists sumWriter msgWriter,
    compose (io.NewBuffer []) E c d
    = Go_on ((sumWriter, msgWriter),
             List E (MessageData.to d), List E (MessageData.cc d))
    /\ io.written sumWriter = Go.bytes (document E c d)
    /\ io.Bytes (bufio.wr (textproto.W msgWriter))
        = DotEncoding.encode (Go.bytes (document E c d)).
Proof.
  unfold compose. rewrite !asStringList_id. cbv zeta.
  set (w0 := (io.NewHash [],
              textproto.DotWriter (bufio.NewWriter (io.NewBuffer [])))).
  assert (H0 : wrote w0 [] w0) by (apply wrote_nil; reflexivity).
  change (if bool_decide (MessageData.from d ≠ "") then MessageData.from d
          else if bool_decide (client.from c ≠ "") then client.from c
               else client.username c) with (sender c d).
  unfold mbind, result_bind.
  destruct (Fprintln_Buffer "failed to write the From header: "
              w0 _ w0 ["From: "; sender c d] H0) as (w1 & -> & H1).
  destruct (Fprintln_Buffer "failed to write the Subject header: "
              w0 _ w1 ["Subject: "; MessageData.subject d] H1)
    as (w2 & -> & H2).
  destruct (address_line_Buffer "failed to write the To header: " "To: "
              w0 _ w2 (List E (MessageData.to d)) H2) as (w3 & -> & H3).
  destruct (address_line_Buffer "failed to write the Cc header: " "Cc: "
              w0 _ w3 (List E (MessageData.cc d)) H3) as (w4 & -> & H4).
  destruct (write_headers_Buffer
              (range (ranging E) (MessageData.headers d)) w0 _ w4 H4)
    as (w5 & -> & H5).
  destruct (Fprintln_Buffer "failed to write the body separator: "
              w0 _ w5 [] H5) as (w6 & -> & H6).
  destruct (Fprint_Buffer "failed to write the body: "
              w0 _ w6 (MessageData.body d) H6) as (w7 & -> & H7).
  destruct H7 as (He & Hh & Hs & Ha).
  destruct (Close_Buffer (snd w7) He) as (m & -> & Hm).
  cbn [or_return].
  match type of Hh with _ = _ ++ ?acc =>
    assert (Hdoc : acc = Go.bytes (document E c d))
  end.
  { unfold document. rewrite !bytes_app. cbn [app].
    rewrite <- !app_assoc. reflexivity. }
  rewrite Hdoc in Hh, Hs, Ha.
  exists (fst w7), m. split; [reflexivity|]. split; [exact Hh|].
  rewrite Hm, Ha, Hs. unfold DotEncoding.encode. cbn [w0 snd textproto.state
    textproto.DotWriter textproto.W accepted bufio.NewWriter bufio.wr
    bufio.buf io.Bytes app].
  now destruct (DotEncoding.run textproto.wstateBegin
                  (Go.bytes (document E c d))).
Qed.

End WritersOverBuffer.

(** * [uniqueRecipients] *)

Section Recipients.

Lemma fst_loop {A B} (l : list (A * B)) : forall out,
  foldl (fun out r => out ++ [fst r]) out l = out ++ l.*1.
Proof.
  induction l as [|r l IH]; intros out; cbn [foldl fmap list_fmap].
  - now rewrite app_nil_r.
  - rewrite IH, <- app_assoc. reflexivity.
Qed.

Lemma insert_loop (l : list string) : forall set : gmap string (),
  dom (foldl (fun set r => <[r := tt]> set) set l) = dom set ∪ list_to_set l.
Proof.
  induction l as [|r l IH]; intros set; cbn [foldl list_to_set].
  - set_solver.
  - rewrite IH, dom_insert_L. set_solver.
Qed.

Lemma recipientSet_dom (recipients : list (list string)) :
  forall set : gmap string (),
  dom (foldl (fun set recipient =>
                foldl (fun set r => <[r := tt]> set) set recipient)
         set recipients)
  = dom set ∪ list_to_set (concat recipients).
Proof.
  induction recipients as [|l ls IH]; intros set; cbn [foldl concat].
  - set_solver.
  - rewrite IH, insert_loop, list_to_set_app_L. set_solver.
Qed.

Lemma keys_perm {V} (m : gmap string V) : (map_to_list m).*1 ≡ₚ elements (dom m).
Proof.
  apply NoDup_Permutation.
  - apply NoDup_fst_map_to_list.
  - apply NoDup_elements.
  - intros k. rewrite elem_of_elements, elem_of_dom, list_elem_of_fmap.
    split.
    + intros ([k' v] & -> & Hin). apply elem_of_map_to_list in Hin. eauto.
    + intros [v Hv]. exists (k, v). split; [reflexivity|].
      now apply elem_of_map_to_list.
Qed.

Lemma uniqueRecipients_perm R (recipients : list (list string)) :
  uniqueRecipients R recipients
  ≡ₚ elements (list_to_set (concat recipients) : gset string).
Proof.
  unfold uniqueRecipients. rewrite fst_loop, app_nil_l.
  rewrite (range_perm R), keys_perm, recipientSet_dom, dom_empty_L.
  now rewrite (left_id_L ∅ (∪)).
Qed.

Lemma uniqueRecipients_elem R (recipients : list (list string)) (r : string) :
  r ∈ uniqueRecipients R recipients <-> exists l, l ∈ recipients /\ r ∈ l.
Proof.
  rewrite uniqueRecipients_perm, elem_of_elements, elem_of_list_to_set.
  rewrite list_elem_of_In, in_concat. setoid_rewrite list_elem_of_In.
  naive_solver.
Qed.

Lemma uniqueRecipients_NoDup R (recipients : list (list string)) :
  NoDup (uniqueRecipients R recipients).
Proof. rewrite uniqueRecipients_perm. apply NoDup_elements. Qed.

End Recipients.

(** * What [resourceMessageCreate] does *)

Section Runs.

(** With a [bytes.Buffer] the message is always composed, and the run is
    decided by the answer of the mail server. *)
Lemma resourceMessageCreate_run E c d :
  resourceMessageCreate E c d
  = match SendMail E (delivery E c d) with
    | Some err =>
        {| diags := diag.Errorf ("Error sending message as "
                                   ++ client.username c ++ ": " ++ err);
           data := d;
           calls := [delivery E c d] |}
    | None =>
        {| diags := [];
           data := MessageData.SetId d
                     (Go.decimal (UnixNano E) ++ "-"
                        ++ Go.hex (SHA256.Sum256 (Go.bytes (document E c d))));
           calls := [delivery E c d] |}
    end.
Proof.
  unfold resourceMessageCreate, resourceMessageCreate_on.
  destruct (compose_Buffer E c d) as (s & m & -> & Hs & Hm).
  rewrite asStringList_id, Hm. unfold io.Sum. rewrite Hs. reflexivity.
Qed.

Context {U : Type} `{io.Writer U}.
Implicit Types w : @writers U.

Lemma write_all_app (todo more : list (string * string)) : forall w,
  write_all w (todo ++ more)
  = match write_all w todo with
    | Go_on w' => write_all w' more
    | Return ds => Return ds
    end.
Proof.
  induction todo as [|[format text] todo IH]; intros w; cbn [app write_all].
  - reflexivity.
  - destruct (io.MultiWrite w (Go.bytes text)) as [[w' n] [err|]];
      [reflexivity | apply IH].
Qed.

Lemma write_headers_all (entries : list (string * string)) : forall w,
  write_headers w entries
  = write_all w
      (map (fun entry =>
              (("failed to write the " ++ fst entry ++ " header: ")%string,
               header_line entry)) entries).
Proof.
  induction entries as [|[k v] rest IH]; intros w;
    cbn [write_headers map write_all].
  - reflexivity.
  - unfold mbind, result_bind, or_return, Fprintln, header_line.
    cbn [fst snd].
    destruct (io.MultiWrite w (Go.bytes (Go.Sprintln [k; ": "; v])))
      as [[w' n] [err|]]; [reflexivity | apply IH].
Qed.

(** [compose] makes the writes of [writes] and closes the message
    writer. *)
Lemma compose_writes (buffer : U) E c d :
  compose buffer E c d
  = match write_all
            (io.NewHash [], textproto.DotWriter (bufio.NewWriter buffer))
            (writes E c d) with
    | Return ds => Return ds
    | Go_on writer =>
        match textproto.Close (snd writer) with
        | (_, Some err) =>
            Return (diag.Errorf ("failed to close the message writer: " ++ err))
        | (msgWriter, None) =>
            Go_on ((fst writer, msgWriter),
                   List E (MessageData.to d), List E (MessageData.cc d))
        end
    end.
Proof.
  unfold compose, writes. rewrite !asStringList_id. cbv zeta.
  change (if bool_decide (MessageData.from d ≠ "") then MessageData.from d
          else if bool_decide (client.from c ≠ "") then client.from c
               else client.username c) with (sender c d).
  set (w0 := (io.NewHash [], textproto.DotWriter (bufio.NewWriter buffer))).
  cbn [app write_all].
  unfold mbind, result_bind, or_return, Fprintln at 1 2.
  destruct (io.MultiWrite w0 _) as [[w1 n1] [e1|]]; [reflexivity|].
  destruct (io.MultiWrite w1 _) as [[w2 n2] [e2|]]; [reflexivity|].
  assert (Hline : forall format label (l : list string) w,
    (if (0 <? length l)%nat
     then match Fprintln w [label; Go.Join l ", "] with
          | (_, Some err) => Return (diag.Errorf (format ++ err))
          | (a, None) => Go_on a
          end
     else Go_on w)
    = write_all w
        match l with
        | [] => []
        | _ :: _ => [(format, Go.Sprintln [label; Go.Join l ", "])]
        end).
  { intros format label [|a l] w; [reflexivity|].
    cbn [length Nat.ltb Nat.leb write_all]. unfold Fprintln.
    now destruct (io.MultiWrite w _) as [[w' n] [err|]]. }
  rewrite write_all_app, Hline.
  destruct (write_all w2 _) as [w3|]; [|reflexivity].
  rewrite write_all_app, Hline.
  destruct (write_all w3 _) as [w4|]; [|reflexivity].
  rewrite write_all_app, write_headers_all.
  destruct (write_all w4 _) as [w5|]; [|reflexivity].
  cbn [write_all]. unfold Fprintln, Fprint, Go.Sprint.
  change (Go.Sprintln []) with Go.newline.
  destruct (io.MultiWrite w5 _) as [[w6 n6] [e6|]]; [reflexivity|].
  destruct (io.MultiWrite w6 _) as [[w7 n7] [e7|]]; [reflexivity|].
  now destruct (textproto.Close (snd w7)) as [m [e|]].
Qed.

End Runs.

(** * [crypto/sha256] on the test vectors of the standard *)

Example Sum256_empty :
  Go.hex (SHA256.Sum256 [])
  = "e3b0c44298fc1c149afbf4c8996fb92427ae41e4649b934ca495991b7852b855".
Proof. vm_compute. reflexivity. Qed.

Example Sum256_abc :
  Go.hex (SHA256.Sum256 (Go.bytes "abc"))
  = "ba7816bf8f01cfea414140de5dae2223b00361a396177a9cb410ff61f20015ad".
Proof. vm_compute. reflexivity. Qed.

Example Sum256_two_blocks :
  Go.hex (SHA256.Sum256
            (Go.bytes "abcdbcdecdefdefgefghfghighijhijkijkljklmklmnlmnomnopnopq"))
  = "248d6a61d20638b8e5c026930c3e6039a33ce45964ff2167f6ecedd419db06c1".
Proof. vm_compute. reflexivity. Qed.

(** * The shape of the identity *)

Section Identity.

Lemma uint_digits (u : Decimal.uint) :
  all_chars is_digit (DecimalString.NilEmpty.string_of_uint u) = true.
Proof. induction u; cbn [DecimalString.NilEmpty.string_of_uint all_chars]; auto. Qed.

Lemma decimal_digits (z : Z) :
  (0 <= z)%Z ->
  exists a s, Go.decimal z = String a s
    /\ all_chars is_digit (Go.decimal z) = true.
Proof.
  intros Hz. unfold Go.decimal.
  destruct z as [|p|p]; [cbn; eauto | | lia].
  cbn [Z.to_int DecimalString.NilZero.string_of_int].
  pose proof (uint_digits (Pos.to_uint p)) as Hd.
  destruct (Pos.to_uint p); cbn; eauto.
Qed.







End Identity.

(** * The provider configuration *)

(** C3, as amended.  [configureClient] fails exactly when neither scheme
    is present: then it returns no client and the error "no authentication
    method specified"; in every other case, both schemes present included,
    it returns a client and no diagnostics. *)
Theorem C3_fails_exactly_without_any_scheme (r : ProviderData.t) :
  (ProviderData.cram_md5_auth r = [] /\ ProviderData.plain_auth r = [] ->
   configureClient r
   = (None, diag.Errorf "no authentication method specified"))
  /\ (ProviderData.cram_md5_auth r <> [] \/ ProviderData.plain_auth r <> [] ->
      exists client, configureClient r = (Some client, [])).
Proof.
  unfold configureClient, GetOk. split.
  - intros [-> ->]. reflexivity.
  - destruct (ProviderData.cram_md5_auth r) as [|cramSettings ?];
      destruct (ProviderData.plain_auth r) as [|plainSettings ?];
      intros [Hne|Hne]; try congruence; eauto.
Qed.

(** C3 as it was stated fails when both schemes are present: a client is
    returned and there is no error. *)
Lemma C3_both_schemes_give_a_client :
  ProviderData.cram_md5_auth Sample.both <> []
  /\ ProviderData.plain_auth Sample.both <> []
  /\ exists client, configureClient Sample.both = (Some client, []).
Proof.
  split; [discriminate|]. split; [discriminate|].
  eexists. reflexivity.
Qed.

(** C10.  With both schemes present, [configureClient] succeeds with the
    CRAM-MD5 mechanism built from the user name and the secret, and the
    result is the same whatever [plain_auth] holds. *)
Theorem C10_cram_md5_takes_precedence (r : ProviderData.t)
    (cramSettings : ProviderData.cram) (more : list ProviderData.cram) :
  ProviderData.cram_md5_auth r = cramSettings :: more ->
  ProviderData.plain_auth r <> [] ->
  configureClient r
  = (Some {| client.auth :=
               smtp.CRAMMD5Auth (ProviderData.username r)
                 (ProviderData.secret cramSettings);
             client.host := ProviderData.host r;
             client.username := ProviderData.username r;
             client.from := ProviderData.from r;
             client.port := ProviderData.port r |}, [])
  /\ forall plain, configureClient (with_plain_auth r plain) = configureClient r.
Proof.
  intros Hcram _. unfold configureClient, GetOk.
  cbn [with_plain_auth ProviderData.cram_md5_auth ProviderData.host
       ProviderData.port ProviderData.username ProviderData.from].
  rewrite Hcram. split; reflexivity.
Qed.

Lemma C10_witness :
  configureClient Sample.both
  = (Some {| client.auth := smtp.CRAMMD5Auth "test" "s3cret";
             client.host := "localhost";
             client.username := "test";
             client.from := "";
             client.port := 587 |}, [])
  /\ forall plain, configureClient (with_plain_auth Sample.both plain)
                   = configureClient Sample.both.
Proof.
  apply (C10_cram_md5_takes_precedence Sample.both
           {| ProviderData.secret := "s3cret" |} []).
  - reflexivity.
  - discriminate.
Defined.

(** The provider block of the acceptance test selects the plain
    mechanism. *)
Example configureClient_plain :
  configureClient Sample.provider = (Some Sample.account, []).
Proof. reflexivity. Qed.

(** * The recipients *)

(** C5.  [uniqueRecipients(to, cc, bcc)] holds an address exactly when one
    of the three lists holds it, holds no address twice, and is the same up
    to the order of its elements for any three lists holding the same
    addresses, whatever their order and their repetitions. *)
Theorem C5_uniqueRecipients_is_the_union (R : MapRange) (to cc bcc : list string) :
  (forall r, r ∈ uniqueRecipients R [to; cc; bcc] <-> r ∈ to \/ r ∈ cc \/ r ∈ bcc)
  /\ NoDup (uniqueRecipients R [to; cc; bcc])
  /\ (forall (R' : MapRange) (to' cc' bcc' : list string),
        (forall r, r ∈ to \/ r ∈ cc \/ r ∈ bcc <-> r ∈ to' \/ r ∈ cc' \/ r ∈ bcc') ->
        uniqueRecipients R' [to'; cc'; bcc'] ≡ₚ uniqueRecipients R [to; cc; bcc]).
Proof.
  assert (Helem : forall R (a b c : list string) r,
            r ∈ uniqueRecipients R [a; b; c] <-> r ∈ a \/ r ∈ b \/ r ∈ c).
  { intros R0 a b c0 r. rewrite uniqueRecipients_elem. split.
    - intros (l & Hl & Hr). set_solver.
    - intros [Hr|[Hr|Hr]]; eexists; (split; [|exact Hr]); set_solver. }
  split; [apply Helem|]. split; [apply uniqueRecipients_NoDup|].
  intros R' to' cc' bcc' Hsame.
  apply NoDup_Permutation; try apply uniqueRecipients_NoDup.
  intros r. rewrite !Helem. symmetry. apply Hsame.
Qed.

(** Scenario 3 of the specification, in the order stdpp lists the set. *)
Example uniqueRecipients_scenario :
  uniqueRecipients listed [["a@x.com"]; ["b@x.com"]; ["c@x.com"; "a@x.com"]]
  = ["c@x.com"; "a@x.com"; "b@x.com"].
Proof. vm_compute. reflexivity. Qed.

(** Addresses are told apart letter by letter. *)
Example uniqueRecipients_case :
  uniqueRecipients listed [["A@x.com"]; ["a@x.com"]; ["a@x.com"]]
  = ["a@x.com"; "A@x.com"].
Proof. vm_compute. reflexivity. Qed.

(** * The composed message *)

Section Lists.

Lemma List_elem (E : World) (s : gset string) (r : string) :
  r ∈ List E s <-> r ∈ s.
Proof. now rewrite (List_perm E), elem_of_elements. Qed.



Lemma encode_longer (p : list byte) :
  (length p + 3 <= length (DotEncoding.encode p))%nat.
Proof.
  assert (Hrun : forall p st,
            (length p <= length (fst (DotEncoding.run st p)))%nat).
  { clear p. induction p as [|c p IH]; intros st; cbn [DotEncoding.run].
    - cbn. lia.
    - assert (Hemit : (1 <= length (fst (DotEncoding.emit st c)))%nat).
      { unfold DotEncoding.emit.
        destruct st, (Byte.eqb c textproto.dot), (Byte.eqb c textproto.lf);
          cbn; lia. }
      destruct (DotEncoding.emit st c) as [o st1]. specialize (IH st1).
      destruct (DotEncoding.run st1 p) as [os st2].
      cbn [fst length] in *. rewrite length_app. lia. }
  unfold DotEncoding.encode. specialize (Hrun p textproto.wstateBegin).
  destruct (DotEncoding.run textproto.wstateBegin p) as [out st].
  cbn [fst] in Hrun. rewrite length_app.
  assert (3 <= length (DotEncoding.finish st))%nat by (destruct st; cbn; lia).
  lia.
Qed.

End Lists.


(** Scenario 3 of the specification with one address both in [to] and in
    [bcc]: there is a [To] and a [Cc] line and no [Bcc] line, and the call
    goes to the three addresses. *)
Example copied_message :
  Sample.hashed_lines Sample.world Sample.account Sample.copied
  = ["From:  test"; "Subject:  Hello World!"; "To:  a@x.com"; "Cc:  b@x.com";
     "X-Mailer :  terraform"; ""; "Boom"]
  /\ map smtp.to (calls (resourceMessageCreate Sample.world Sample.account
                           Sample.copied))
     = [["c@x.com"; "a@x.com"; "b@x.com"]].
Proof. split; vm_compute; reflexivity. Qed.

(** C2, as amended.  The hash takes the text as it is written; the buffer
    handed to [smtp.SendMail] holds the dot encoding of that very text, made
    in the same pass: a carriage return before each bare line feed, a
    doubled dot at the start of a line, and the closing [.\r\n].  The
    identity is made from the hash of the text.  The bytes hashed and the
    bytes sent are never the same sequence. *)
Theorem C2_hash_of_the_text_buffer_of_its_encoding (E : World) (c : client.t)
    (d : MessageData.t) :
  exists sumWriter msgWriter to cc,
    compose (io.NewBuffer []) E c d = Go_on ((sumWriter, msgWriter), to, cc)
    /\ io.Bytes (bufio.wr (textproto.W msgWriter))
       = DotEncoding.encode (io.written sumWriter)
    /\ map smtp.msg (calls (resourceMessageCreate E c d))
       = [io.Bytes (bufio.wr (textproto.W msgWriter))]
    /\ (diags (resourceMessageCreate E c d) = [] ->
        MessageData.Id (data (resourceMessageCreate E c d))
        = (Go.decimal (UnixNano E) ++ "-"
             ++ Go.hex (SHA256.Sum256 (io.written sumWriter)))%string)
    /\ io.written sumWriter <> io.Bytes (bufio.wr (textproto.W msgWriter)).
Proof.
  destruct (compose_Buffer E c d) as (s & m & Hc & Hs & Hm).
  exists s, m, (List E (MessageData.to d)), (List E (MessageData.cc d)).
  split; [exact Hc|]. rewrite Hm, Hs. split; [reflexivity|].
  rewrite resourceMessageCreate_run.
  split; [now destruct (SendMail E _)|].
  split; [destruct (SendMail E _); [discriminate|reflexivity]|].
  intros Heq. pose proof (encode_longer (Go.bytes (document E c d))) as Hlen.
  rewrite <- Heq in Hlen. lia.
Qed.

(** C2 as it was stated fails on the message of the acceptance test: the
    bytes hashed are not the bytes in the buffer. *)
Lemma C2_hashed_bytes_differ_from_sent_bytes :
  exists sumWriter msgWriter to cc,
    compose (io.NewBuffer []) Sample.world Sample.account Sample.message
    = Go_on ((sumWriter, msgWriter), to, cc)
    /\ map smtp.msg
         (calls (resourceMessageCreate Sample.world Sample.account Sample.message))
       = [io.Bytes (bufio.wr (textproto.W msgWriter))]
    /\ length (io.written sumWriter) = 66%nat
    /\ length (io.Bytes (bufio.wr (textproto.W msgWriter))) = 75%nat
    /\ io.written sumWriter <> io.Bytes (bufio.wr (textproto.W msgWriter)).
Proof.
  do 4 eexists. split; [vm_compute; reflexivity|].
  split; [vm_compute; reflexivity|].
  split; [vm_compute; reflexivity|].
  split; [vm_compute; reflexivity|].
  intros Heq. apply (f_equal length) in Heq. vm_compute in Heq. discriminate.
Qed.

(** C4.  The [From] line carries the message's own [from] when it is not
    empty, else the account's default [from] when that is not empty, else
    the account's user name. *)
Theorem C4_sender_precedence (E : World) (c : client.t) (d : MessageData.t) :
  exists sumWriter msgWriter to cc s rest,
    compose (io.NewBuffer []) E c d = Go_on ((sumWriter, msgWriter), to, cc)
    /\ io.written sumWriter = Go.bytes ("From:  " ++ s ++ Go.newline ++ rest)
    /\ (MessageData.from d <> "" -> s = MessageData.from d)
    /\ (MessageData.from d = "" -> client.from c <> "" -> s = client.from c)
    /\ (MessageData.from d = "" -> client.from c = "" ->
        s = client.username c).
Proof.
  destruct (compose_Buffer E c d) as (sw & mw & Hc & Hs & _).
  exists sw, mw, (List E (MessageData.to d)), (List E (MessageData.cc d)),
    (sender c d).
  eexists. split; [exact Hc|]. split.
  - rewrite Hs. unfold document, Go.Sprintln at 1.
    change (Go.Join ["From: "; sender c d] " ") with ("From:  " +:+ sender c d).
    rewrite !string_app_assoc. reflexivity.
  - unfold sender. repeat case_bool_decide; repeat split; congruence.
Qed.

(** The precedence on the senders "A", "B" and "C" of the specification,
    and the first line of the second acceptance test. *)
Example sender_A :
  Sample.hashed_lines Sample.world Sample.account_B Sample.message_A
  = ["From:  A"; "Subject:  s"; "To:  devnull@spacelift.io"; ""; "b"].
Proof. vm_compute. reflexivity. Qed.

Example sender_B :
  Sample.hashed_lines Sample.world Sample.account_B Sample.message_no_from
  = ["From:  B"; "Subject:  s"; "To:  devnull@spacelift.io"; ""; "b"].
Proof. vm_compute. reflexivity. Qed.

Example sender_C :
  Sample.hashed_lines Sample.world Sample.account_C Sample.message_no_from
  = ["From:  C"; "Subject:  s"; "To:  devnull@spacelift.io"; ""; "b"].
Proof. vm_compute. reflexivity. Qed.

Example first_line_of_greeting :
  head (Sample.hashed_lines Sample.world Sample.account Sample.greeting)
  = Some ("From:  " +:+ Sample.quote +:+ "Hello" +:+ Sample.quote
            +:+ " <world@example.com>").
Proof. vm_compute. reflexivity. Qed.


(** * Failures *)

Section Failures.
Context {U : Type} `{io.Writer U}.
Implicit Types w : @writers U.

Lemma write_all_Return (todo : list (string * string)) : forall w ds,
  write_all w todo = Return ds ->
  exists before format text after w1 w2 n err,
    todo = before ++ (format, text) :: after
    /\ write_all w before = Go_on w1
    /\ io.MultiWrite w1 (Go.bytes text) = (w2, n, Some err)
    /\ ds = diag.Errorf (format ++ err).
Proof.
  induction todo as [|[format text] todo IH]; intros w ds;
    cbn [write_all]; [discriminate|].
  destruct (io.MultiWrite w (Go.bytes text)) as [[w' n] [err|]] eqn:Hw.
  - intros [= <-]. exists [], format, text, todo, w, w', n, err. auto.
  - intros Hrest.
    destruct (IH _ _ Hrest)
      as (before & f & t & after & w1 & w2 & m & e & -> & Hb & Hf & ->).
    exists ((format, text) :: before), f, t, after, w1, w2, m, e.
    cbn [app write_all]. rewrite Hw. auto.
Qed.

(** A composition that returns diagnostics does so because a write or
    the closing failed, and the diagnostics name that step. *)
Lemma compose_Return (buffer : U) E c d ds :
  compose buffer E c d = Return ds ->
  exists format err,
    write_fails buffer E c d format err /\ ds = diag.Errorf (format ++ err).
Proof.
  rewrite compose_writes.
  destruct (write_all _ (writes E c d)) as [w|ds'] eqn:Hall.
  - destruct (textproto.Close (snd w)) as [m [err|]] eqn:Hclose;
      [|discriminate].
    intros [= <-]. eexists _, err. split; [|reflexivity].
    eapply fails_close; eassumption.
  - intros [= <-].
    destruct (write_all_Return _ _ _ Hall)
      as (before & f & t & after & w1 & w2 & m & e & Hsplit & Hb & Hf & ->).
    exists f, e. split; [|reflexivity].
    eapply fails_write; eassumption.
Qed.

Lemma write_fails_compose (buffer : U) E c d format err :
  write_fails buffer E c d format err ->
  compose buffer E c d = Return (diag.Errorf (format ++ err)).
Proof.
  rewrite compose_writes.
  intros [before f text after w w' n e Hsplit Hbefore Hfail
         | w m e Hall Hclose].
  - rewrite Hsplit, write_all_app, Hbefore. cbn [write_all].
    now rewrite Hfail.
  - now rewrite Hall, Hclose.
Qed.

End Failures.

(** C9.  When a write of the composition fails, be it the [From], the
    [Subject], the [To] or the [Cc] line, a line of [headers], the empty
    line, the body, or the closing of the message writer,
    [resourceMessageCreate] returns the error of that step, makes no call
    to [smtp.SendMail], and leaves the resource data, its id included, as
    it was. *)
Theorem C9_failed_write_stops_before_sending {U : Type} `{io.Writer U}
    (Bytes : U -> list byte) (buffer : U) (E : World) (c : client.t)
    (d : MessageData.t) (format err : string) :
  write_fails buffer E c d format err ->
  resourceMessageCreate_on Bytes buffer E c d
  = {| diags := diag.Errorf (format ++ err); data := d; calls := [] |}.
Proof.
  intros Hfail. unfold resourceMessageCreate_on.
  now rewrite (write_fails_compose buffer E c d format err Hfail).
Qed.

Lemma C9_witness :
  resourceMessageCreate_on Broken.Bytes Broken.Pipe
    Sample.world Sample.account Sample.message
  = {| diags := diag.Errorf ("failed to close the message writer: "
                               ++ "broken pipe");
       data := Sample.message;
       calls := [] |}.
Proof.
  apply C9_failed_write_stops_before_sending.
  eapply fails_close; [vm_compute; reflexivity | vm_compute; reflexivity].
Defined.

(** With a subject that does not fit the buffer of the [bufio.Writer], it
    is the write of the [Subject] line that fails. *)
Example subject_write_fails :
  write_fails Broken.Pipe Sample.world Sample.account Sample.lengthy
    "failed to write the Subject header: " "broken pipe".
Proof.
  eapply (fails_write _ _ _ _ [_]);
    [vm_compute; reflexivity | vm_compute; reflexivity | vm_compute; reflexivity].
Qed.

(** * The identity *)



(** The first acceptance test: the message is sent and gets its id. *)
Example identity_of_the_test_message :
  let o := resourceMessageCreate Sample.world Sample.account Sample.message in
  diags o = []
  /\ MessageData.Id (data o)
     = "1700000000000000000-21d3f006fce06cf48c65a0144948bcc509b133d4a97407391cf986c09ee701f3"
  /\ id_pattern (MessageData.Id (data o)) = true.
Proof. vm_compute. repeat split; reflexivity. Qed.

(** A refused message: an error, and no id. *)
Example refused_message :
  resourceMessageCreate Sample.refusing Sample.account Sample.message
  = {| diags := diag.Errorf "Error sending message as test: 554 rejected";
       data := Sample.message;
       calls := [delivery Sample.refusing Sample.account Sample.message] |}.
Proof. vm_compute. reflexivity. Qed.

(** * The lines of [headers] *)

(** The line written for an entry of [headers]: [Fprintln] puts a space
    between any two of its operands, so one comes before the colon and two
    come after it. *)
Lemma header_line_text (k v : string) :
  header_line (k, v) = k +:+ " :  " +:+ v +:+ Go.newline.
Proof.
  unfold header_line, Go.Sprintln. cbn [fst snd].
  change (Go.Join [k; ": "; v] " ") with (k +:+ " " +:+ ": " +:+ " " +:+ v).
  rewrite !string_app_assoc. reflexivity.
Qed.

(** C8.  For the entry [X-Mailer] with the value [terraform] the text holds
    the line [X-Mailer :  terraform], not [X-Mailer: terraform]: the key is
    followed by a space, the colon and two spaces. *)
Theorem C8_header_line_as_written :
  Sample.hashed_lines Sample.world Sample.account Sample.copied
  = ["From:  test"; "Subject:  Hello World!"; "To:  a@x.com"; "Cc:  b@x.com";
     "X-Mailer :  terraform"; ""; "Boom"].
Proof. vm_compute. reflexivity. Qed.

(** * More on the provider configuration *)

(** With only [plain_auth] present, the client carries the PLAIN mechanism
    made of the identity, the user name, the password and the host of the
    first block, and the four settings of the provider block. *)
Theorem configureClient_plain_only (r : ProviderData.t)
    (plainSettings : ProviderData.plain) (more : list ProviderData.plain) :
  ProviderData.cram_md5_auth r = [] ->
  ProviderData.plain_auth r = plainSettings :: more ->
  configureClient r
  = (Some {| client.auth :=
               smtp.PlainAuth (ProviderData.identity plainSettings)
                 (ProviderData.username r)
                 (ProviderData.password plainSettings)
                 (ProviderData.host r);
             client.host := ProviderData.host r;
             client.username := ProviderData.username r;
             client.from := ProviderData.from r;
             client.port := ProviderData.port r |}, []).
Proof.
  intros Hcram Hplain. unfold configureClient, GetOk.
  rewrite Hcram, Hplain. reflexivity.
Qed.

Lemma configureClient_plain_only_witness :
  configureClient Sample.provider
  = (Some {| client.auth := smtp.PlainAuth "" "test" "test" "localhost";
             client.host := "localhost";
             client.username := "test";
             client.from := "";
             client.port := 587 |}, []).
Proof.
  apply (configureClient_plain_only Sample.provider
           {| ProviderData.password := "test"; ProviderData.identity := "" |} []);
    reflexivity.
Defined.

(** [configureClient] ends in one of two ways.  Either it returns a client
    and no diagnostics: the client then has a mechanism to authenticate
    with, never [nil], and the host, user name, sender and port of the
    provider block.  Or it returns no client and the one error. *)
Theorem configureClient_client_or_error (r : ProviderData.t) :
  (exists c,
     configureClient r = (Some c, [])
     /\ client.auth c <> smtp.nil_Auth
     /\ client.host c = ProviderData.host r
     /\ client.username c = ProviderData.username r
     /\ client.from c = ProviderData.from r
     /\ client.port c = ProviderData.port r)
  \/ (configureClient r
      = (None, diag.Errorf "no authentication method specified")
      /\ ProviderData.cram_md5_auth r = []
      /\ ProviderData.plain_auth r = []).
Proof.
  unfold configureClient, GetOk.
  destruct (ProviderData.cram_md5_auth r) as [|cramSettings ?].
  - destruct (ProviderData.plain_auth r) as [|plainSettings ?].
    + right. auto.
    + left. eexists. split; [reflexivity|]. cbn. split; [discriminate | repeat split].
  - left. eexists. split; [reflexivity|]. cbn. split; [discriminate | repeat split].
Qed.

(** A provider block that passes the checks of the schema has exactly one
    of the two blocks, once, and [configureClient] returns a client with
    the mechanism of that block. *)
Theorem checked_provider_is_configured (version : string) (r : ProviderData.t) :
  checks (provider_specified r) (provider_items r)
    (Provider_Schema (New version)) = true ->
  (exists cramSettings c,
     ProviderData.cram_md5_auth r = [cramSettings]
     /\ ProviderData.plain_auth r = []
     /\ configureClient r = (Some c, [])
     /\ client.auth c
        = smtp.CRAMMD5Auth (ProviderData.username r)
            (ProviderData.secret cramSettings))
  \/ (exists plainSettings c,
        ProviderData.cram_md5_auth r = []
        /\ ProviderData.plain_auth r = [plainSettings]
        /\ configureClient r = (Some c, [])
        /\ client.auth c
           = smtp.PlainAuth (ProviderData.identity plainSettings)
               (ProviderData.username r)
               (ProviderData.password plainSettings)
               (ProviderData.host r)).
Proof.
  destruct r as [h u f p cram plain]. intros Hchecks.
  unfold configureClient, GetOk.
  cbn [ProviderData.cram_md5_auth ProviderData.plain_auth ProviderData.host
       ProviderData.username ProviderData.from ProviderData.port].
  destruct cram as [|cramSettings [|? ?]];
    destruct plain as [|plainSettings [|? ?]];
    vm_compute in Hchecks; try discriminate Hchecks.
  - right. eexists _, _. repeat split.
  - left. eexists _, _. repeat split.
Qed.

Lemma checked_provider_is_configured_witness :
  (exists cramSettings c,
     ProviderData.cram_md5_auth Sample.provider = [cramSettings]
     /\ ProviderData.plain_auth Sample.provider = []
     /\ configureClient Sample.provider = (Some c, [])
     /\ client.auth c
        = smtp.CRAMMD5Auth (ProviderData.username Sample.provider)
            (ProviderData.secret cramSettings))
  \/ (exists plainSettings c,
        ProviderData.cram_md5_auth Sample.provider = []
        /\ ProviderData.plain_auth Sample.provider = [plainSettings]
        /\ configureClient Sample.provider = (Some c, [])
        /\ client.auth c
           = smtp.PlainAuth (ProviderData.identity plainSettings)
               (ProviderData.username Sample.provider)
               (ProviderData.password plainSettings)
               (ProviderData.host Sample.provider)).
Proof.
  apply (checked_provider_is_configured "dev" Sample.provider).
  vm_compute. reflexivity.
Defined.

(** The provider block with both schemes does not pass the checks. *)
Example both_schemes_are_turned_down :
  checks (provider_specified Sample.both) (provider_items Sample.both)
    (Provider_Schema (New "dev")) = false.
Proof. vm_compute. reflexivity. Qed.

(** * More on the recipients *)

(** [asStringList] hands back the strings it is given, in their order. *)
Theorem asStringList_copies (l : list string) :
  asStringList l = l /\ length (asStringList l) = length l.
Proof. rewrite asStringList_id. split; reflexivity. Qed.

(** For any number of lists, [uniqueRecipients] holds exactly the
    addresses of the lists, each once. *)
Theorem uniqueRecipients_of_any_lists (R : MapRange)
    (recipients : list (list string)) :
  NoDup (uniqueRecipients R recipients)
  /\ forall r, r ∈ uniqueRecipients R recipients
               <-> exists l, l ∈ recipients /\ r ∈ l.
Proof.
  split; [apply uniqueRecipients_NoDup|].
  intros r. apply uniqueRecipients_elem.
Qed.

(** [uniqueRecipients] never holds more addresses than it was given; it is
    empty exactly when all the lists are; and lists that repeat no address
    come back whole, up to the order. *)
Theorem uniqueRecipients_size (R : MapRange) (recipients : list (list string)) :
  length (uniqueRecipients R recipients) <= length (concat recipients)
  /\ (uniqueRecipients R recipients = [] <-> concat recipients = [])
  /\ (NoDup (concat recipients) ->
      uniqueRecipients R recipients ≡ₚ concat recipients).
Proof.
  assert (Hin : forall r, r ∈ uniqueRecipients R recipients
                          <-> r ∈ concat recipients).
  { intros r. rewrite uniqueRecipients_elem, !list_elem_of_In, in_concat.
    setoid_rewrite list_elem_of_In. naive_solver. }
  split; [|split].
  - apply submseteq_length, NoDup_submseteq.
    + apply uniqueRecipients_NoDup.
    + intros r. apply Hin.
  - split; intros Hnil.
    + destruct (concat recipients) as [|r l]; [reflexivity|].
      assert (Hr : r ∈ uniqueRecipients R recipients) by (apply Hin; left).
      rewrite Hnil in Hr. inversion Hr.
    + destruct (uniqueRecipients R recipients) as [|r l]; [reflexivity|].
      assert (Hr : r ∈ concat recipients) by (apply Hin; left).
      rewrite Hnil in Hr. inversion Hr.
  - intros Hnodup. apply NoDup_Permutation;
      [apply uniqueRecipients_NoDup | exact Hnodup | exact Hin].
Qed.

(** Resolving the recipients again changes nothing, and it does not matter
    how the addresses are spread over the lists. *)
Theorem uniqueRecipients_again (R R' : MapRange)
    (recipients : list (list string)) :
  uniqueRecipients R' [uniqueRecipients R recipients]
    ≡ₚ uniqueRecipients R recipients
  /\ uniqueRecipients R' [concat recipients] ≡ₚ uniqueRecipients R recipients.
Proof.
  split; apply NoDup_Permutation; try apply uniqueRecipients_NoDup;
    intros r; rewrite !uniqueRecipients_elem.
  - split.
    + intros (l & Hl & Hr). apply list_elem_of_singleton in Hl as ->.
      now apply uniqueRecipients_elem in Hr.
    + intros Hr. eexists. split; [apply list_elem_of_singleton; reflexivity|].
      now apply uniqueRecipients_elem.
  - rewrite <- (uniqueRecipients_elem R' [concat recipients]).
    rewrite <- (uniqueRecipients_elem R recipients).
    rewrite !uniqueRecipients_perm. cbn [concat]. now rewrite app_nil_r.
Qed.

(** * More on [resourceMessageCreate] *)

Section Delivery.

Lemma list_to_set_List (E : World) (s : gset string) :
  list_to_set (List E s) = s.
Proof.
  apply set_eq. intros r. now rewrite elem_of_list_to_set, List_elem.
Qed.

Lemma recipients_perm (E : World) (to cc bcc : gset string) :
  uniqueRecipients (ranging E) [List E to; List E cc; List E bcc]
  ≡ₚ elements (to ∪ cc ∪ bcc).
Proof.
  rewrite uniqueRecipients_perm. cbn [concat].
  rewrite !list_to_set_app_L, !list_to_set_List, list_to_set_nil.
  now rewrite (right_id_L ∅ (∪)), (assoc_L (∪)).
Qed.

Lemma calls_delivery (E : World) (c : client.t) (d : MessageData.t) :
  calls (resourceMessageCreate E c d) = [delivery E c d].
Proof. rewrite resourceMessageCreate_run. now destruct (SendMail E _). Qed.

Lemma delivery_to (E : World) (c : client.t) (d : MessageData.t) :
  smtp.to (delivery E c d)
  ≡ₚ elements (MessageData.to d ∪ MessageData.cc d ∪ MessageData.bcc d).
Proof. apply recipients_perm. Qed.

End Delivery.

(** Every run of [resourceMessageCreate] makes one call to
    [smtp.SendMail]: to the host and port of the account joined by a colon,
    with the mechanism of the account, with the user name of the account
    as the sender of the envelope, whatever the [From] line says, and with
    the addresses of [to], [cc] and [bcc] together, each once. *)
Theorem one_call_to_the_account (E : World) (c : client.t) (d : MessageData.t) :
  exists call,
    calls (resourceMessageCreate E c d) = [call]
    /\ smtp.addr call = (client.host c ++ ":" ++ Go.decimal (client.port c))%string
    /\ smtp.a call = client.auth c
    /\ smtp.from call = client.username c
    /\ smtp.to call
       ≡ₚ elements (MessageData.to d ∪ MessageData.cc d ∪ MessageData.bcc d).
Proof.
  exists (delivery E c d). rewrite resourceMessageCreate_run.
  split; [now destruct (SendMail E _)|].
  cbn [delivery smtp.addr smtp.a smtp.from smtp.to].
  repeat split. apply recipients_perm.
Qed.

(** A message collected in a [bytes.Buffer] is always composed: the run
    fails exactly when [smtp.SendMail] does, with the error "Error sending
    message as", the user name, and the error of the transport; the
    resource data is then as it was. *)
Theorem fails_exactly_when_the_delivery_fails (E : World) (c : client.t)
    (d : MessageData.t) :
  exists call,
    calls (resourceMessageCreate E c d) = [call]
    /\ match SendMail E call with
       | Some err =>
           diags (resourceMessageCreate E c d)
           = diag.Errorf ("Error sending message as " ++ client.username c
                            ++ ": " ++ err)
           /\ data (resourceMessageCreate E c d) = d
       | None =>
           diags (resourceMessageCreate E c d) = []
           /\ MessageData.Id (data (resourceMessageCreate E c d)) <> ""
       end.
Proof.
  exists (delivery E c d). rewrite resourceMessageCreate_run.
  destruct (SendMail E (delivery E c d)) as [err|]; cbn [calls diags data].
  - repeat split.
  - split; [reflexivity|]. split; [reflexivity|].
    cbn [MessageData.SetId MessageData.Id].
    destruct (Go.decimal (UnixNano E)); discriminate.
Qed.

(** [resourceMessageCreate] does not ask for a recipient: with [to], [cc]
    and [bcc] all empty it still calls [smtp.SendMail], with no recipient
    at all. *)
Theorem no_recipient_is_still_sent (E : World) (c : client.t)
    (d : MessageData.t) :
  MessageData.to d = ∅ -> MessageData.cc d = ∅ -> MessageData.bcc d = ∅ ->
  exists call,
    calls (resourceMessageCreate E c d) = [call] /\ smtp.to call = [].
Proof.
  intros Hto Hcc Hbcc. pose proof (delivery_to E c d) as Hp.
  exists (delivery E c d). split; [apply calls_delivery|].
  rewrite Hto, Hcc, Hbcc, !(left_id_L ∅ (∪)), elements_empty in Hp.
  now apply Permutation_nil_r.
Qed.

Lemma no_recipient_is_still_sent_witness :
  exists call,
    calls (resourceMessageCreate Sample.world Sample.account Sample2.nobody)
    = [call]
    /\ smtp.to call = [].
Proof.
  apply (no_recipient_is_still_sent Sample.world Sample.account Sample2.nobody);
    reflexivity.
Defined.

(** * The schema of the resource and its other operations *)

Section MessageChecks.

Lemma checks_recipients (specified : string -> bool) (items : string -> nat) :
  checks specified items (Resource_Schema resourceMessage) = true ->
  specified "to" || specified "cc" || specified "bcc" = true.
Proof.
  intros Hchecks.
  destruct (specified "to") eqn:Hto; [reflexivity|].
  destruct (specified "cc") eqn:Hcc; [reflexivity|].
  destruct (specified "bcc") eqn:Hbcc; [reflexivity|].
  exfalso. unfold checks in Hchecks.
  apply forallb_forall with (x := ("to", recipientList "Direct recipients of the message"))
    in Hchecks; [|cbn; tauto].
  apply andb_true_iff in Hchecks as [Hchecks _].
  apply andb_true_iff in Hchecks as [_ Hchecks].
  unfold check_AtLeastOneOf in Hchecks. cbn [fst snd] in Hchecks.
  change (schema.get_AtLeastOneOf _) with ["to"; "cc"; "bcc"] in Hchecks.
  assert (Hgroup : group ["to"; "cc"; "bcc"] "to" = ["cc"; "bcc"; "to"])
    by (vm_compute; reflexivity).
  cbv iota in Hchecks. rewrite Hgroup, !filter_cons, filter_nil in Hchecks.
  repeat case_decide; try congruence. discriminate Hchecks.
Qed.

End MessageChecks.

(** A request that passes the checks of the schema names at least one
    address, and [smtp.SendMail] is called with at least one recipient. *)
Theorem checked_message_has_a_recipient (E : World) (c : client.t)
    (d : MessageData.t) :
  checks (message_specified d) (message_items d)
    (Resource_Schema resourceMessage) = true ->
  exists call r,
    calls (resourceMessageCreate E c d) = [call] /\ r ∈ smtp.to call.
Proof.
  intros Hchecks. apply checks_recipients in Hchecks.
  pose proof (delivery_to E c d) as Hp.
  exists (delivery E c d).
  assert (Hne : MessageData.to d ∪ MessageData.cc d ∪ MessageData.bcc d ≠ ∅).
  { intros Hempty.
    assert (Hsizes : size (MessageData.to d) = 0 /\ size (MessageData.cc d) = 0
                     /\ size (MessageData.bcc d) = 0).
    { repeat split; apply size_empty_iff; set_solver. }
    destruct Hsizes as (Hto & Hcc & Hbcc).
    unfold message_specified in Hchecks. cbn in Hchecks.
    rewrite Hto, Hcc, Hbcc in Hchecks. discriminate Hchecks. }
  apply set_choose_L in Hne as [r Hr]. exists r.
  split; [apply calls_delivery|]. rewrite Hp. now apply elem_of_elements.
Qed.

Lemma checked_message_has_a_recipient_witness :
  exists call r,
    calls (resourceMessageCreate Sample.world Sample.account Sample.message)
    = [call]
    /\ r ∈ smtp.to call.
Proof.
  apply (checked_message_has_a_recipient Sample.world Sample.account
           Sample.message).
  vm_compute. reflexivity.
Defined.

(** The request without a recipient does not pass the checks. *)
Example nobody_is_turned_down :
  checks (message_specified Sample2.nobody) (message_items Sample2.nobody)
    (Resource_Schema resourceMessage) = false.
Proof. vm_compute. reflexivity. Qed.


(** Deleting never fails and only clears the id; reading changes nothing.
    A new resource that is created and then deleted has its data as before
    the creation. *)
Theorem delete_undoes_create (E : World) (c : client.t) (d : MessageData.t) :
  MessageData.Id d = "" ->
  DeleteContext resourceMessage (data (CreateContext resourceMessage E c d))
  = (d, [])
  /\ ReadContext resourceMessage (data (CreateContext resourceMessage E c d))
     = (data (CreateContext resourceMessage E c d), []).
Proof.
  intros Hid. split; [|reflexivity].
  cbn [DeleteContext CreateContext resourceMessage].
  rewrite resourceMessageCreate_run.
  unfold resourceMessageDelete, RemoveFromState, FromErr.
  destruct d as [subject body from to cc bcc headers Id].
  cbn [MessageData.Id] in Hid. subst Id.
  now destruct (SendMail E _).
Qed.

Lemma delete_undoes_create_witness :
  DeleteContext resourceMessage
    (data (CreateContext resourceMessage Sample.world Sample.account
             Sample.message))
  = (Sample.message, [])
  /\ ReadContext resourceMessage
       (data (CreateContext resourceMessage Sample.world Sample.account
                Sample.message))
     = (data (CreateContext resourceMessage Sample.world Sample.account
                Sample.message), []).
Proof.
  apply (delete_undoes_create Sample.world Sample.account Sample.message).
  reflexivity.
Defined.



(** * The framed message *)

Section Framing.
Import textproto.

Lemma ends_cr_cons (a : list byte) (c : byte) (after_cr : bool) :
  ends_cr after_cr (c :: a) = ends_cr (Byte.eqb c cr) a.
Proof.
  unfold ends_cr. destruct a as [|c' a']; [reflexivity|].
  cbn [last]. destruct (last (c' :: a')) eqn:Hlast; [reflexivity|].
  apply last_None in Hlast. discriminate.
Qed.

Lemma crlf_only_app (a b : list byte) : forall after_cr,
  crlf_only after_cr (a ++ b)
  = crlf_only after_cr a && crlf_only (ends_cr after_cr a) b.
Proof.
  induction a as [|c a IH]; intros after_cr.
  - reflexivity.
  - cbn [app crlf_only]. now rewrite IH, andb_assoc, ends_cr_cons.
Qed.

Lemma ends_cr_snoc (a : list byte) (c : byte) (after_cr : bool) :
  ends_cr after_cr (a ++ [c]) = Byte.eqb c cr.
Proof. unfold ends_cr. now rewrite last_snoc. Qed.

Lemma ends_cr_inv (a : list byte) :
  ends_cr false a = true -> exists o, a = o ++ [cr].
Proof.
  unfold ends_cr. destruct a as [|c a _] using rev_ind; [discriminate|].
  rewrite last_snoc. intros Hc. apply Byte.byte_dec_bl in Hc. subst c. eauto.
Qed.

Lemma ends_cr_app (a b : list byte) : forall after_cr,
  ends_cr after_cr (a ++ b) = ends_cr (ends_cr after_cr a) b.
Proof.
  induction a as [|c a IH]; intros after_cr; [reflexivity|].
  cbn [app]. now rewrite !ends_cr_cons, IH.
Qed.

Lemma emit_kept (st : wstate) (c : byte) (acc : list byte) :
  kept st acc ->
  kept (snd (DotEncoding.emit st c)) (acc ++ fst (DotEncoding.emit st c)).
Proof.
  intros (Hcrlf & Hcr & Hline).
  assert (Hend : st = wstateCR -> exists o, acc = o ++ [cr])
    by (intros Hst; apply ends_cr_inv, Hcr, Hst).
  unfold kept, DotEncoding.emit.
  destruct (Byte.eqb c lf) eqn:Hlf.
  - apply Byte.byte_dec_bl in Hlf. subst c.
    change (Byte.eqb lf dot) with false. change (Byte.eqb lf cr) with false.
    destruct st; cbn [fst snd app];
      rewrite crlf_only_app, Hcrlf, ?ends_cr_app;
      (split; [try rewrite (Hcr eq_refl); reflexivity|]);
      (split; [discriminate|intros _]);
      try (now exists acc).
    destruct (Hend eq_refl) as [o ->]. exists o. now rewrite <- app_assoc.
  - destruct (Byte.eqb c cr) eqn:Hc.
    + apply Byte.byte_dec_bl in Hc. subst c.
      change (Byte.eqb cr dot) with false.
      destruct st; cbn [fst snd app];
        rewrite crlf_only_app, Hcrlf, ?ends_cr_app;
        (split; [reflexivity|]);
        (split; [reflexivity || discriminate | discriminate]).
    + destruct (Byte.eqb c dot) eqn:Hdot; destruct st; cbn [fst snd app];
        rewrite crlf_only_app, Hcrlf, ?ends_cr_app;
        cbn [crlf_only andb]; rewrite ?Hlf;
        (split; [try (apply Byte.byte_dec_bl in Hdot; subst c); reflexivity|]);
        (split; discriminate).
Qed.

Lemma run_kept (p : list byte) : forall st acc,
  kept st acc ->
  kept (snd (DotEncoding.run st p)) (acc ++ fst (DotEncoding.run st p)).
Proof.
  induction p as [|c p IH]; intros st acc Hkept; cbn [DotEncoding.run].
  - cbn. now rewrite app_nil_r.
  - pose proof (emit_kept st c acc Hkept) as Hstep.
    destruct (DotEncoding.emit st c) as [o st1]. cbn [fst snd] in Hstep.
    specialize (IH st1 (acc ++ o) Hstep).
    destruct (DotEncoding.run st1 p) as [os st2]. cbn [fst snd] in *.
    now rewrite app_assoc.
Qed.

Lemma encode_framed (p : list byte) :
  crlf_only false (DotEncoding.encode p) = true
  /\ exists body, DotEncoding.encode p = body ++ [cr; lf; dot; cr; lf].
Proof.
  assert (Hkept : kept wstateBegin []).
  { repeat split; discriminate. }
  apply (run_kept p) in Hkept. unfold DotEncoding.encode.
  destruct (DotEncoding.run wstateBegin p) as [out st].
  cbn [fst snd app] in Hkept. destruct Hkept as (Hcrlf & Hcr & Hline).
  rewrite crlf_only_app, Hcrlf. cbn [andb].
  destruct st; cbn [DotEncoding.finish dotcrnl].
  - split; [reflexivity|]. now exists out.
  - destruct (Hline eq_refl) as [o ->].
    split; [reflexivity|]. exists o. now rewrite <- app_assoc.
  - rewrite (Hcr eq_refl). split; [reflexivity|].
    destruct (ends_cr_inv out (Hcr eq_refl)) as [o ->].
    exists o. now rewrite <- app_assoc.
  - split; [reflexivity|]. now exists out.
Qed.

End Framing.

(** The message handed to [smtp.SendMail] is framed: each of its line
    feeds comes right after a carriage return, and it ends with the line of
    a single dot that closes an SMTP data transfer. *)
Theorem framed_message_line_ends (E : World) (c : client.t) (d : MessageData.t) :
  exists call body,
    calls (resourceMessageCreate E c d) = [call]
    /\ crlf_only false (smtp.msg call) = true
    /\ smtp.msg call
       = body ++ [textproto.cr; textproto.lf; textproto.dot;
                  textproto.cr; textproto.lf].
Proof.
  destruct (encode_framed (Go.bytes (document E c d))) as (Hcrlf & body & Hend).
  exists (delivery E c d), body. rewrite resourceMessageCreate_run.
  split; [now destruct (SendMail E _)|].
  cbn [delivery smtp.msg]. auto.
Qed.

(** * Reading an id back *)

Section ReadingIds.

Lemma unhex_hex (b : list byte) : unhex (Go.hex b) = b.
Proof.
  induction b as [|x b IH]; cbn [Go.hex unhex]; [reflexivity|].
  rewrite IH. f_equal. destruct x; vm_compute; reflexivity.
Qed.

Lemma decimal_inj (z z' : Z) : Go.decimal z = Go.decimal z' -> z = z'.
Proof.
  unfold Go.decimal. intros Heq. apply DecimalZ.to_int_inj.
  assert (Hnorm : forall x,
            DecimalString.NilZero.int_of_string
              (DecimalString.NilZero.string_of_int (Z.to_int x))
            = Some (Z.to_int x)).
  { intros x. apply DecimalString.NilZero.isi; destruct x as [|p|p];
      cbn; try discriminate;
      intros [= Hnil]; now apply DecimalPos.Unsigned.to_uint_nonnil in Hnil. }
  pose proof (Hnorm z) as Hz. rewrite Heq, Hnorm in Hz. now injection Hz.
Qed.

Lemma split_at_dash (a b x y : string) :
  all_chars is_digit a = true -> all_chars is_digit b = true ->
  a +:+ "-" +:+ x = b +:+ "-" +:+ y -> a = b /\ x = y.
Proof.
  revert b. induction a as [|ca a IH]; intros [|cb b] Ha Hb Heq.
  - injection Heq as Heq. auto.
  - injection Heq as Hc _. subst cb. cbn in Hb. discriminate Hb.
  - injection Heq as Hc _. subst ca. cbn in Ha. discriminate Ha.
  - injection Heq as Hc Heq. subst cb.
    cbn [all_chars] in Ha, Hb.
    apply andb_true_iff in Ha as [_ Ha]. apply andb_true_iff in Hb as [_ Hb].
    destruct (IH b Ha Hb Heq) as [-> ->]. auto.
Qed.

End ReadingIds.

(** An id tells the time of the delivery and the fingerprint: two
    deliveries with the same id happened at the same nanosecond and hashed
    to the same fingerprint.  So two deliveries at different times never
    share an id.  The clocks are taken to be past 1970. *)
Theorem id_tells_time_and_fingerprint (E E' : World) (c c' : client.t)
    (d d' : MessageData.t) :
  (0 <= UnixNano E)%Z -> (0 <= UnixNano E')%Z ->
  diags (resourceMessageCreate E c d) = [] ->
  diags (resourceMessageCreate E' c' d') = [] ->
  MessageData.Id (data (resourceMessageCreate E c d))
  = MessageData.Id (data (resourceMessageCreate E' c' d')) ->
  UnixNano E = UnixNano E'
  /\ SHA256.Sum256 (Go.bytes (document E c d))
     = SHA256.Sum256 (Go.bytes (document E' c' d')).
Proof.
  intros Hclock Hclock'. rewrite !resourceMessageCreate_run.
  destruct (SendMail E (delivery E c d)); [discriminate|].
  destruct (SendMail E' (delivery E' c' d')); [discriminate|].
  intros _ _. cbn [data MessageData.SetId MessageData.Id]. intros Heq.
  destruct (decimal_digits _ Hclock) as (_ & _ & _ & Hd).
  destruct (decimal_digits _ Hclock') as (_ & _ & _ & Hd').
  apply split_at_dash in Heq as [Htime Hhex]; [|assumption..].
  split; [now apply decimal_inj|].
  rewrite <- (unhex_hex (SHA256.Sum256 (Go.bytes (document E c d)))).
  now rewrite Hhex, unhex_hex.
Qed.

Lemma id_tells_time_and_fingerprint_witness :
  UnixNano Sample.world = UnixNano Sample.world
  /\ SHA256.Sum256 (Go.bytes (document Sample.world Sample.account Sample.message))
     = SHA256.Sum256
         (Go.bytes (document Sample.world Sample.account
                      (with_bcc Sample.message {[ "c@x.com" ]}))).
Proof.
  apply (id_tells_time_and_fingerprint Sample.world Sample.world
           Sample.account Sample.account Sample.message
           (with_bcc Sample.message {[ "c@x.com" ]}));
    vm_compute; try reflexivity; discriminate.
Defined.

(** * Writes that fit the buffer of the [bufio.Writer] *)

Lemma string_app_nil_r (s : string) : s +:+ "" = s.
Proof.
  induction s as [|a s IH]; [reflexivity|].
  change (String a s +:+ "") with (String a (s +:+ "")). now rewrite IH.
Qed.

Section Buffering.
Context {U : Type} `{io.Writer U}.
Implicit Types (b : bufio.Writer U) (d : textproto.dotWriter U).

Lemma WriteByte_room b c :
  bufio.err b = None ->
  length (bufio.buf b) < bufio.defaultBufSize ->
  bufio.WriteByte b c
  = (bufio.mkWriter (bufio.wr b) (bufio.buf b ++ [c]) None, None).
Proof.
  intros He Hroom. unfold bufio.WriteByte, bufio.Available. rewrite He.
  destruct (Nat.leb_spec (bufio.defaultBufSize - length (bufio.buf b)) 0)
    as [Hle|_]; [lia|].
  now rewrite He.
Qed.

Lemma Write_room b p :
  bufio.err b = None ->
  length (bufio.buf b) + length p <= bufio.defaultBufSize ->
  bufio.Write b p = (bufio.mkWriter (bufio.wr b) (bufio.buf b ++ p) None, None).
Proof.
  intros He Hroom. unfold bufio.Write. cbn [bufio.Write_loop].
  assert (Hfits : (bufio.Available b <? length p)%nat = false)
    by (apply Nat.ltb_ge; unfold bufio.Available; lia).
  rewrite Hfits. cbn [andb]. now rewrite He.
Qed.

Lemma step_room d c :
  bufio.err (textproto.W d) = None ->
  length (bufio.buf (textproto.W d))
    + length (fst (DotEncoding.emit (textproto.state d) c))
    <= bufio.defaultBufSize ->
  textproto.step d c
  = (textproto.mkDotWriter
       (bufio.mkWriter (bufio.wr (textproto.W d))
          (bufio.buf (textproto.W d)
             ++ fst (DotEncoding.emit (textproto.state d) c)) None)
       (snd (DotEncoding.emit (textproto.state d) c)), None).
Proof.
  destruct d as [[u bf e] st]. cbn [textproto.W textproto.state bufio.err
    bufio.buf bufio.wr]. intros ->. unfold textproto.step, DotEncoding.emit.
  cbn [textproto.W textproto.state].
  destruct st, (Byte.eqb c textproto.dot), (Byte.eqb c textproto.lf),
    (Byte.eqb c textproto.cr);
    cbn [fst snd app length]; intros Hroom;
    repeat (rewrite (WriteByte_room (bufio.mkWriter _ _ None))
              by (cbn [bufio.err bufio.buf]; rewrite ?length_app; cbn [length];
                  first [reflexivity | lia]);
            cbn [fst bufio.wr bufio.buf]);
    rewrite <- ?app_assoc; reflexivity.
Qed.

Lemma run_length_app (p q : list byte) (st : textproto.wstate) :
  length (fst (DotEncoding.run st (p ++ q)))
  = length (fst (DotEncoding.run st p))
    + length (fst (DotEncoding.run (snd (DotEncoding.run st p)) q)).
Proof. rewrite run_app. cbn [fst]. apply length_app. Qed.

Lemma Write_from_room p : forall n d,
  bufio.err (textproto.W d) = None ->
  length (bufio.buf (textproto.W d))
    + length (fst (DotEncoding.run (textproto.state d) p))
    <= bufio.defaultBufSize ->
  textproto.Write_from n d p
  = (textproto.mkDotWriter
       (bufio.mkWriter (bufio.wr (textproto.W d))
          (bufio.buf (textproto.W d)
             ++ fst (DotEncoding.run (textproto.state d) p)) None)
       (snd (DotEncoding.run (textproto.state d) p)),
     (n + length p)%nat, None).
Proof.
  induction p as [|c p IH]; intros n d He Hroom;
    cbn [textproto.Write_from DotEncoding.run] in *.
  - destruct d as [[u bf e] st]. cbn in *. subst e.
    now rewrite app_nil_r, Nat.add_0_r.
  - destruct (DotEncoding.emit (textproto.state d) c) as [o st1] eqn:Hemit.
    destruct (DotEncoding.run st1 p) as [os st2] eqn:Hrun.
    cbn [fst snd] in Hroom. rewrite length_app in Hroom.
    rewrite step_room by (rewrite ?Hemit; cbn [fst]; first [assumption | lia]).
    rewrite Hemit. cbn [fst snd].
    rewrite IH by (cbn [textproto.W textproto.state bufio.err bufio.buf];
                   rewrite ?Hrun, ?length_app; cbn [fst];
                   first [reflexivity | lia]).
    cbn [textproto.W textproto.state bufio.wr bufio.buf]. rewrite Hrun.
    cbn [fst snd length]. rewrite <- app_assoc. do 2 f_equal. lia.
Qed.

Lemma write_all_room (todo : list (string * string)) :
  forall (h : io.Hash) d,
  bufio.err (textproto.W d) = None ->
  length (bufio.buf (textproto.W d))
    + length (fst (DotEncoding.run (textproto.state d) (Go.bytes (texts todo))))
    <= bufio.defaultBufSize ->
  write_all (h, d) todo
  = Go_on
      (io.NewHash (io.written h ++ Go.bytes (texts todo)),
       textproto.mkDotWriter
         (bufio.mkWriter (bufio.wr (textproto.W d))
            (bufio.buf (textproto.W d)
               ++ fst (DotEncoding.run (textproto.state d)
                         (Go.bytes (texts todo)))) None)
         (snd (DotEncoding.run (textproto.state d) (Go.bytes (texts todo))))).
Proof.
  induction todo as [|[format text] todo IH]; intros h d He Hroom;
    cbn [write_all texts] in *.
  - destruct h as [w], d as [[u bf e] st]. cbn in *. subst e.
    now rewrite !app_nil_r.
  - rewrite bytes_app in *. rewrite run_length_app in Hroom.
    unfold io.MultiWrite. cbn [fst snd].
    change (io.Write h (Go.bytes text))
      with (io.NewHash (io.written h ++ Go.bytes text),
            length (Go.bytes text), @None string).
    cbv beta iota zeta. rewrite Nat.eqb_refl. cbn [negb].
    change (io.Write d (Go.bytes text))
      with (textproto.Write_from 0 d (Go.bytes text)).
    rewrite Write_from_room by (first [assumption | lia]).
    cbn [Nat.add]. rewrite Nat.eqb_refl. cbn [negb].
    rewrite IH by (cbn [textproto.W textproto.state bufio.err bufio.buf];
                   rewrite ?length_app; first [reflexivity | lia]).
    cbn [textproto.W textproto.state bufio.wr bufio.buf io.written].
    rewrite run_app. cbn [fst snd]. now rewrite <- !app_assoc.
Qed.

Lemma Close_room d :
  bufio.err (textproto.W d) = None ->
  length (bufio.buf (textproto.W d))
    + length (DotEncoding.finish (textproto.state d))
    <= bufio.defaultBufSize ->
  textproto.Close d
  = let '(bw, e) :=
      bufio.Flush
        (bufio.mkWriter (bufio.wr (textproto.W d))
           (bufio.buf (textproto.W d)
              ++ DotEncoding.finish (textproto.state d)) None) in
    (textproto.mkDotWriter bw (textproto.state d), e).
Proof.
  destruct d as [[u bf e] st]. cbn [textproto.W textproto.state bufio.err
    bufio.buf bufio.wr]. intros ->. unfold textproto.Close, DotEncoding.finish.
  cbn [textproto.W textproto.state].
  destruct st; cbn [length textproto.dotcrnl]; intros Hroom;
    repeat (rewrite (WriteByte_room (bufio.mkWriter _ _ None))
              by (cbn [bufio.err bufio.buf]; rewrite ?length_app; cbn [length];
                  first [reflexivity | lia]);
            cbn [fst bufio.wr bufio.buf]);
    rewrite (Write_room (bufio.mkWriter _ _ None))
      by (cbn [bufio.err bufio.buf]; rewrite ?length_app;
          change (length textproto.dotcrnl) with 3; cbn [length];
          first [reflexivity | lia]);
    cbn [fst bufio.wr bufio.buf textproto.dotcrnl];
    rewrite <- ?app_assoc; reflexivity.
Qed.

Lemma texts_app (a b : list (string * string)) :
  texts (a ++ b) = texts a +:+ texts b.
Proof.
  induction a as [|[f t] a IH]; cbn [app texts]; [reflexivity|].
  now rewrite IH, string_app_assoc.
Qed.

Lemma writes_texts (E : World) (c : client.t) (d0 : MessageData.t) :
  texts (writes E c d0) = document E c d0.
Proof.
  assert (Hline : forall format label (l : list string),
            texts match l with
                  | [] => []
                  | _ :: _ => [(format, Go.Sprintln [label; Go.Join l ", "])]
                  end = address_line label l).
  { intros format label [|a l]; [reflexivity|].
    cbn [texts address_line]. apply string_app_nil_r. }
  assert (Hheaders : forall l : list (string * string),
            texts (map (fun entry =>
                          (("failed to write the " ++ fst entry ++ " header: ")%string,
                           header_line entry)) l)
            = header_lines l).
  { induction l as [|e l IH]; cbn [map texts header_lines]; [reflexivity|].
    now rewrite IH. }
  unfold writes, document. cbv zeta. rewrite !texts_app. cbn [texts].
  rewrite !Hline, Hheaders, !string_app_nil_r, !string_app_assoc.
  reflexivity.
Qed.

End Buffering.

(** A message whose framed text fits the 4096 bytes of the [bufio.Writer]
    reaches the buffer in one single write, made when the message writer is
    closed.  So whatever the buffer is, such a message can only fail at the
    closing, with the error of that write or with a short write; if the
    write goes well, the hash has taken the text and the buffer was handed
    the framed message. *)
Theorem short_message_is_written_at_close {U : Type} `{io.Writer U}
    (buffer : U) (E : World) (c : client.t) (d : MessageData.t) :
  length (DotEncoding.encode (Go.bytes (document E c d)))
    <= bufio.defaultBufSize ->
  compose buffer E c d
  = let framed := DotEncoding.encode (Go.bytes (document E c d)) in
    let '(u, n, e) := io.Write buffer framed in
    match match e with
          | None => if (n <? length framed)%nat
                    then Some io.ErrShortWrite else None
          | Some _ => e
          end with
    | Some err =>
        Return (diag.Errorf ("failed to close the message writer: " ++ err))
    | None =>
        Go_on ((io.NewHash (Go.bytes (document E c d)),
                textproto.mkDotWriter (bufio.mkWriter u [] None)
                  (snd (DotEncoding.run textproto.wstateBegin
                          (Go.bytes (document E c d))))),
               List E (MessageData.to d), List E (MessageData.cc d))
    end.
Proof.
  intros Hfits. pose proof (encode_longer (Go.bytes (document E c d))) as Hlong.
  unfold DotEncoding.encode in *.
  destruct (DotEncoding.run textproto.wstateBegin (Go.bytes (document E c d)))
    as [out st] eqn:Hrun.
  rewrite length_app in Hfits.
  rewrite compose_writes.
  rewrite write_all_room
    by (cbn [textproto.DotWriter textproto.W textproto.state bufio.NewWriter
             bufio.err bufio.buf];
        rewrite ?writes_texts, ?Hrun; cbn [fst length];
        first [reflexivity | lia]).
  rewrite writes_texts. cbn [textproto.DotWriter textproto.W textproto.state
    bufio.NewWriter bufio.err bufio.buf bufio.wr io.written app snd].
  rewrite Hrun. cbn [fst snd].
  rewrite Close_room
    by (cbn [textproto.W textproto.state bufio.err bufio.buf];
        first [reflexivity | lia]).
  cbn [textproto.W textproto.state bufio.err bufio.buf bufio.wr].
  unfold bufio.Flush. cbn [bufio.err bufio.buf bufio.wr].
  destruct (out ++ DotEncoding.finish st) as [|x framed] eqn:Hframed.
  { cbn [length] in Hlong. lia. }
  destruct (io.Write buffer (x :: framed)) as [[u n] [err|]].
  - reflexivity.
  - destruct (n <? length (x :: framed))%nat; reflexivity.
Qed.

Lemma short_message_is_written_at_close_witness :
  compose Broken.Pipe Sample.world Sample.account Sample.message
  = let framed :=
      DotEncoding.encode
        (Go.bytes (document Sample.world Sample.account Sample.message)) in
    let '(u, n, e) := io.Write Broken.Pipe framed in
    match match e with
          | None => if (n <? length framed)%nat
                    then Some io.ErrShortWrite else None
          | Some _ => e
          end with
    | Some err =>
        Return (diag.Errorf ("failed to close the message writer: " ++ err))
    | None =>
        Go_on ((io.NewHash
                  (Go.bytes (document Sample.world Sample.account Sample.message)),
                textproto.mkDotWriter (bufio.mkWriter u [] None)
                  (snd (DotEncoding.run textproto.wstateBegin
                          (Go.bytes (document Sample.world Sample.account
                                       Sample.message))))),
               List Sample.world (MessageData.to Sample.message),
               List Sample.world (MessageData.cc Sample.message))
    end.
Proof.
  apply (short_message_is_written_at_close Broken.Pipe Sample.world
           Sample.account Sample.message).
  apply Nat.leb_le. vm_compute. reflexivity.
Defined.

(** Whatever the buffer is, a composition returns diagnostics only because
    a write or the closing failed: there is then one diagnostic, an error,
    made of the format of the failed step and the error of the writer, and
    nothing is sent. *)
Theorem only_a_failed_write_stops_the_composition {U : Type} `{io.Writer U}
    (Bytes : U -> list byte) (buffer : U) (E : World) (c : client.t)
    (d : MessageData.t) :
  calls (resourceMessageCreate_on Bytes buffer E c d) = [] ->
  exists format err,
    write_fails buffer E c d format err
    /\ diags (resourceMessageCreate_on Bytes buffer E c d)
       = [diag.mkDiagnostic diag.Error (format ++ err)]
    /\ (format = "failed to close the message writer: "
        \/ format ∈ map fst (writes E c d)).
Proof.
  unfold resourceMessageCreate_on.
  destruct (compose buffer E c d) as [[[[sw mw] to] cc]|ds] eqn:Hc.
  - destruct (SendMail E _); discriminate.
  - intros _. destruct (compose_Return buffer E c d ds Hc) as (f & e & Hf & ->).
    exists f, e. split; [exact Hf|]. split; [reflexivity|].
    destruct Hf as [before f text after w w' n e Hsplit _ _ | w m e _ _].
    + right. rewrite Hsplit, map_app. cbn [map fst].
      apply list_elem_of_In, in_or_app. right. now left.
    + now left.
Qed.

Lemma only_a_failed_write_stops_the_composition_witness :
  exists format err,
    write_fails Broken.Pipe Sample.world Sample.account Sample.message
      format err
    /\ diags (resourceMessageCreate_on Broken.Bytes Broken.Pipe Sample.world
                Sample.account Sample.message)
       = [diag.mkDiagnostic diag.Error (format ++ err)]
    /\ (format = "failed to close the message writer: "
        \/ format ∈ map fst (writes Sample.world Sample.account Sample.message)).
Proof.
  apply (only_a_failed_write_stops_the_composition Broken.Bytes Broken.Pipe
           Sample.world Sample.account Sample.message).
  vm_compute. reflexivity.
Defined.
